(** * CF-AICord: the conversation session manager of [main.py]

    A shallow embedding of the stateful part of the bot: the
    [conversations] collection, [SelectModelSelect.callback],
    [Bot.fetch_response], [regenerate_response] and [on_message].

    The Mongo collection is an insertion-ordered list of documents, the
    calls to the chat platform and to the inference endpoint are recorded
    in a log, and Python exceptions are an explicit result.

    The calls to the chat platform ([defer], [reply],
    [edit_original_response], [typing], ...) and the driver calls to Mongo
    are taken to succeed; [print(data)] and [self.disabled = True] have no
    part in what is stated here and are left out.  One handler runs at a
    time.  [callback] is the handler for the thread that [create_thread]
    gave it; [select_model] runs it against the threads of the platform,
    where [create_thread] can be refused. *)

From Stdlib Require Import ZArith List Bool Lia.
From Stdlib Require Import Ascii String.
Import ListNotations.
Open Scope string_scope.
Open Scope Z_scope.
Open Scope list_scope.

Set Warnings "-register-all".

(** ** Values *)

(** A value as [response.json()] yields it and as Mongo stores it.  Number
    literals are kept as written; an object keeps the members in document
    order. *)
Inductive json : Type :=
| JNull
| JBool (b : bool)
| JNum (literal : string)
| JStr (s : string)
| JArr (items : list json)
| JObj (members : list (string * json)).

Inductive Role : Type := system | user | assistant.

Record Message : Type := mkMessage { role : Role; content : json }.

(** A document of [bot.conversations]. *)
Record Document : Type := mkDocument {
  thread_id : Z;
  messages : list Message;
  model : string
}.

(** The literal of [callback], line 70. *)
Definition persona : string :=
  "You are a Discord Bot. Be rude, don't speak so formally. Speak with slang.".

Definition system_message : Message := mkMessage system (JStr persona).

(** ** Python exceptions and subscripting *)

Inductive Exn : Type :=
| KeyError (key : string)
| TypeError
| AttributeError
| ClientError
| ContentTypeError
| HTTPException.

Inductive Res (A : Type) : Type :=
| Ret (a : A)
| Raise (e : Exn).
Arguments Ret {A} a.
Arguments Raise {A} e.

(** [json.loads] keeps the last of two members with the same key. *)
Definition obj_get (k : string) (members : list (string * json)) : option json :=
  fold_left (fun acc kv => if String.eqb (fst kv) k then Some (snd kv) else acc)
            members None.

(** [d[k]] with a string key. *)
Definition getitem (d : json) (k : string) : Res json :=
  match d with
  | JObj members =>
      match obj_get k members with
      | Some v => Ret v
      | None => Raise (KeyError k)
      end
  | _ => Raise TypeError
  end.

(** [l.append(x)]: only a list has the method. *)
Definition py_append (l : json) (x : json) : Res json :=
  match l with
  | JArr items => Ret (JArr (items ++ [x]))
  | _ => Raise AttributeError
  end.

(** ** [str.replace] *)

(** [old] is not empty here: scan from the left, and at an occurrence of
    [old] emit [new] and skip the occurrence ([skip] counts what is left of
    it). *)
Fixpoint replace_go (old new : string) (skip : nat) (s : string) : string :=
  match s with
  | EmptyString => EmptyString
  | String c s' =>
      match skip with
      | S k => replace_go old new k s'
      | O =>
          if String.prefix old s
          then (new ++ replace_go old new (Nat.pred (String.length old)) s')%string
          else String c (replace_go old new O s')
      end
  end.

(** With an empty [old] Python puts [new] before every character and at
    the end. *)
Fixpoint interleave (new s : string) : string :=
  match s with
  | EmptyString => new
  | String c s' => (new ++ String c (interleave new s'))%string
  end.

Definition replace (old new s : string) : string :=
  match old with
  | EmptyString => interleave new s
  | String _ _ => replace_go old new O s
  end.

(** ** The collection *)

Definition Collection : Type := list Document.

Definition matches (tid : Z) (d : Document) : bool := thread_id d =? tid.

(** [find_one({"thread_id": tid})]: the first document that matches. *)
Definition find_one (tid : Z) (docs : Collection) : option Document :=
  find (matches tid) docs.

(** [insert_one(doc)]: there is no unique index on [thread_id]. *)
Definition insert_one (d : Document) (docs : Collection) : Collection :=
  docs ++ [d].

Definition push (m : Message) (d : Document) : Document :=
  mkDocument (thread_id d) (messages d ++ [m]) (model d).

(** [update_one({"thread_id": tid}, {"$push": {"messages": m}})]: the first
    document that matches gets [m] at the end of its [messages]; without a
    match nothing changes. *)
Fixpoint update_one_push (tid : Z) (m : Message) (docs : Collection) : Collection :=
  match docs with
  | [] => []
  | d :: ds =>
      if matches tid d then push m d :: ds
      else d :: update_one_push tid m ds
  end.

(** ** Effects *)

(** What a handler does to the outside, in program order.  [EvPush] and
    [EvInsert] are the writes to the collection, [EvPost] the request to the
    inference endpoint with the [messages] of its body. *)
Inductive Event : Type :=
| EvDefer
| EvFollowup (text : string)
| EvCreateThread (name : string)
| EvEditOriginal (text : json)
| EvAddUser (thread : Z)
| EvInsert (d : Document)
| EvPush (thread : Z) (m : Message)
| EvPost (url : string) (payload : list Message)
| EvTyping (channel : Z)
| EvReply (text : json)
| EvProcessCommands.

Record World : Type := mkWorld {
  conversations : Collection;
  log : list Event
}.

(** A coroutine of the bot: it runs on a world and either returns or raises,
    and the world keeps what was done before the exception. *)
Definition M (A : Type) : Type := World -> Res A * World.

Definition ret {A} (a : A) : M A := fun w => (Ret a, w).

Definition raise {A} (e : Exn) : M A := fun w => (Raise e, w).

Definition bind {A B} (m : M A) (f : A -> M B) : M B :=
  fun w =>
    match m w with
    | (Ret a, w') => f a w'
    | (Raise e, w') => (Raise e, w')
    end.

Definition lift {A} (r : Res A) : M A := fun w => (r, w).

Declare Scope coroutine_scope.
Delimit Scope coroutine_scope with co.
Notation "x <- m ;; k" := (bind m (fun x => k))
  (at level 61, m at next level, right associativity) : coroutine_scope.
Notation "m ;; k" := (bind m (fun _ => k))
  (at level 61, right associativity) : coroutine_scope.
Open Scope coroutine_scope.

Definition emit (e : Event) : M unit :=
  fun w => (Ret tt, mkWorld (conversations w) (log w ++ [e])).

Definition db_find_one (tid : Z) : M (option Document) :=
  fun w => (Ret (find_one tid (conversations w)), w).

Definition db_insert_one (d : Document) : M unit :=
  fun w => (Ret tt, mkWorld (insert_one d (conversations w)) (log w ++ [EvInsert d])).

Definition db_push (tid : Z) (m : Message) : M unit :=
  fun w => (Ret tt, mkWorld (update_one_push tid m (conversations w))
                            (log w ++ [EvPush tid m])).

(** What [session.post(...)] followed by [response.json()] comes to: the
    request fails, the body is not JSON, or the body parses. *)
Inductive HttpOutcome : Type :=
| ConnectionFailed
| NotJson
| Body (data : json).

(** The inference service, as seen from the bot. *)
Definition Inference : Type := string -> list Message -> HttpOutcome.

Definition post_json (net : Inference) (url : string) (payload : list Message) : M json :=
  emit (EvPost url payload) ;;
  match net url payload with
  | ConnectionFailed => raise ClientError
  | NotJson => raise ContentTypeError
  | Body data => ret data
  end.

(** ** The bot *)

Record ClientSession : Type := mkClientSession { authorization : string }.

Record Bot : Type := mkBot {
  user_mention : string;
  cloudflare_account_id : string;
  session : option ClientSession
}.

Definition run_url (self : Bot) (model_name : string) : string :=
  ("https://api.cloudflare.com/client/v4/accounts/"
     ++ cloudflare_account_id self ++ "/ai/run/" ++ model_name)%string.

(** [Bot.fetch_response], lines 105-138.  [None] is [JNull]. *)
Definition fetch_response (self : Bot) (net : Inference)
    (model_name : string) (message : string) (tid : Z) : M json :=
  let message := replace (user_mention self) "" message in
  data <- db_find_one tid ;;
  match data, session self with
  | Some data, Some _ =>
      let history := messages data ++ [mkMessage user (JStr message)] in
      db_push tid (mkMessage user (JStr message)) ;;
      data <- post_json net (run_url self model_name) history ;;
      result <- lift (getitem data "result") ;;
      ai_message <- lift (getitem result "response") ;;
      data_messages <- lift (getitem data "messages") ;;
      _ <- lift (py_append data_messages
                   (JObj [("role", JStr "assistant"); ("content", ai_message)])) ;;
      db_push tid (mkMessage assistant ai_message) ;;
      ret ai_message
  | _, _ => ret JNull
  end.

(** The interaction of the select menu: the message the menu hangs on, if
    any, and the user who chose. *)
Record SelectInteraction : Type := mkSelectInteraction {
  interaction_message : option Z;
  interaction_user_mention : string
}.

(** [SelectModelSelect.callback], lines 49-75.  [thread] is the id of the
    thread the platform creates. *)
Definition callback (model_name : string) (interaction : SelectInteraction)
    (thread : Z) : M unit :=
  emit EvDefer ;;
  match interaction_message interaction with
  | None => emit (EvFollowup "Something went wrong, please try again later!")
  | Some _ =>
      emit (EvCreateThread ("Chat with " ++ model_name)%string) ;;
      emit (EvEditOriginal (JStr
        ("Hi " ++ interaction_user_mention interaction
           ++ "! You are now chatting with " ++ model_name
           ++ "! @mention me for me to process your message!")%string)) ;;
      emit (EvAddUser thread) ;;
      db_insert_one (mkDocument thread [system_message] model_name)
  end.

(** A platform message as the handlers read it. *)
Record PlatformMessage : Type := mkPlatformMessage {
  author_bot : bool;
  mentions_bot : bool;
  text : string;
  channel_id : Z
}.

Definition is_empty (s : string) : bool :=
  match s with EmptyString => true | String _ _ => false end.

Definition not_generated : string :=
  "This is not a message I generated a response for, and I can't generate a response for it without breach of privacy.".

Definition not_my_reply : string :=
  "This command is used on a message I replied to, not my reply. Please try again!".

(** [regenerate_response], lines 156-175; [channel] is
    [interaction.channel.id]. *)
Definition regenerate_response (self : Bot) (net : Inference)
    (channel : Z) (message : PlatformMessage) : M unit :=
  emit EvDefer ;;
  data <- db_find_one channel ;;
  match data with
  | None => emit (EvEditOriginal (JStr not_generated))
  | Some data =>
      if author_bot message || is_empty (text message)
      then emit (EvEditOriginal (JStr not_my_reply))
      else
        emit (EvTyping channel) ;;
        ai_message <- fetch_response self net (model data) (text message) channel ;;
        match ai_message with
        | JNull => ret tt
        | _ => emit (EvEditOriginal ai_message)
        end
  end.

(** [on_message], lines 179-195. *)
Definition on_message (self : Bot) (net : Inference)
    (message : PlatformMessage) : M unit :=
  if author_bot message || negb (mentions_bot message) || is_empty (text message)
  then emit EvProcessCommands
  else
    data <- db_find_one (channel_id message) ;;
    match data with
    | None => emit EvProcessCommands
    | Some data =>
        emit (EvTyping (channel_id message)) ;;
        ai_message <- fetch_response self net (model data) (text message)
                        (channel_id message) ;;
        match ai_message with
        | JNull => ret tt
        | _ => emit (EvReply ai_message)
        end
    end.

(** ** Runs of the bot *)

(** One event of the chat platform delivered to the bot. *)
Inductive Invocation : Type :=
| Select (model_name : string) (interaction : SelectInteraction) (thread : Z)
| Inbound (self : Bot) (net : Inference) (message : PlatformMessage)
| Regenerate (self : Bot) (net : Inference) (channel : Z) (message : PlatformMessage).

Definition handle (i : Invocation) : M unit :=
  match i with
  | Select model_name interaction thread => callback model_name interaction thread
  | Inbound self net message => on_message self net message
  | Regenerate self net channel message => regenerate_response self net channel message
  end.

(** The handlers run one after the other; an exception ends a handler, not
    the bot. *)
Definition run_all (events : list Invocation) (w : World) : World :=
  fold_left (fun w i => snd (handle i w)) events w.

Definition initial : World := mkWorld [] [].

(** ** Notions the statements use *)

(** Lines 131-133 on a parsed body: the value bound to [ai_message], or the
    exception [data["result"]["response"]] or [data["messages"].append]
    raises. *)
Definition read_reply (data : json) : Res json :=
  match getitem data "result" with
  | Raise e => Raise e
  | Ret result =>
      match getitem result "response" with
      | Raise e => Raise e
      | Ret ai_message =>
          match getitem data "messages" with
          | Raise e => Raise e
          | Ret data_messages =>
              match py_append data_messages
                      (JObj [("role", JStr "assistant"); ("content", ai_message)]) with
              | Raise e => Raise e
              | Ret _ => Ret ai_message
              end
          end
      end
  end.

(** Lines 127-133 on what the request comes to. *)
Definition reply_of (o : HttpOutcome) : Res json :=
  match o with
  | ConnectionFailed => Raise ClientError
  | NotJson => Raise ContentTypeError
  | Body data => read_reply data
  end.

(** The body the inference service sends for a generated text. *)
Definition cloudflare_result (generated : string) : json :=
  JObj [("result", JObj [("response", JStr generated)]);
        ("success", JBool true);
        ("errors", JArr []);
        ("messages", JArr [])].

(** The history of the session of a thread. *)
Definition history (tid : Z) (w : World) : option (list Message) :=
  option_map messages (find_one tid (conversations w)).

(** The number of sessions of a thread. *)
Definition sessions_of (tid : Z) (w : World) : nat :=
  List.length (filter (matches tid) (conversations w)).

Definition starts_with_persona (d : Document) : Prop :=
  hd_error (messages d) = Some system_message.

Definition is_user_push (e : Event) : bool :=
  match e with
  | EvPush _ m => match role m with user => true | _ => false end
  | _ => false
  end.

Definition is_assistant_push (e : Event) : bool :=
  match e with
  | EvPush _ m => match role m with assistant => true | _ => false end
  | _ => false
  end.

Definition is_inference_call (e : Event) : bool :=
  match e with
  | EvPost _ _ => true
  | _ => false
  end.

(** Every [q] event of [l] comes after every [p] event of [l], and has a
    [p] event before it. *)
Definition happens_before (p q : Event -> bool) (l : list Event) : Prop :=
  (forall i j ei ej,
      nth_error l i = Some ei -> nth_error l j = Some ej ->
      p ei = true -> q ej = true -> (i < j)%nat) /\
  (forall j ej,
      nth_error l j = Some ej -> q ej = true ->
      exists i ei, nth_error l i = Some ei /\ p ei = true /\ (i < j)%nat).

(** An occurrence of [token] in [seg ++ token] begins inside [seg]. *)
Fixpoint starts_within (token seg : string) : bool :=
  match seg with
  | EmptyString => false
  | String _ seg' =>
      String.prefix token (seg ++ token)%string || starts_within token seg'
  end.

(** What a handler shows of [ai_message]: nothing when it is [None]. *)
Definition shown (display : json -> Event) (ai_message : json) : list Event :=
  match ai_message with
  | JNull => []
  | _ => [display ai_message]
  end.

(** An inference service that answers every request with the same
    generated text. *)
Definition mock (generated : string) : Inference :=
  fun _ _ => Body (cloudflare_result generated).

(** The entry [fetch_response] makes of the text it is given. *)
Definition asked_of (self : Bot) (raw : string) : Message :=
  mkMessage user (JStr (replace (user_mention self) "" raw)).

(** The request to the inference service gives no reply the code can use:
    it fails, or the body is not JSON, or lines 132-133 raise on the body. *)
Definition inference_fails (o : HttpOutcome) : Prop :=
  exists e, reply_of o = Raise e.

(** The writes of one handler to the session of a thread. *)
Definition pushes (tid : Z) (ms : list Message) (docs : Collection) : Collection :=
  fold_left (fun c m => update_one_push tid m c) ms docs.

(** ** The select menu *)

(** [s.split(sep)] for a separator of one character: the pieces between
    the separators, in order; never an empty list. *)
Fixpoint split_on (sep : ascii) (s : string) : list string :=
  match s with
  | EmptyString => [EmptyString]
  | String c s' =>
      if Ascii.eqb c sep then EmptyString :: split_on sep s'
      else
        match split_on sep s' with
        | [] => [String c EmptyString]
        | piece :: pieces => String c piece :: pieces
        end
  end.

(** [name.split("/")[-1]], line 19. *)
Definition label_of (name : string) : string :=
  last (split_on "/"%char name) EmptyString.

(** An entry of the list of lines 23-40. *)
Record ModelInfo : Type := mkModelInfo {
  name : string;
  description : string
}.

Definition model_catalog : list ModelInfo :=
  [ mkModelInfo "@cf/meta/llama-2-7b-chat-fp16"
      "Full precision (fp16) generative text model with 7 billion parameters from Meta";
    mkModelInfo "@cf/meta/llama-2-7b-chat-int8"
      "Quantized (int8) generative text model with 7 billion parameters from Meta";
    mkModelInfo "@cf/mistral/mistral-7b-instruct-v0.1"
      "Instruct fine-tuned version of the Mistral-7b generative text model with 7 billion parameters";
    mkModelInfo "@hf/thebloke/codellama-7b-instruct-awq"
      "Instruct fine-tuned version of the Codellama-7b generative text model with 7 billion parameters" ].

Record SelectOption : Type := mkSelectOption {
  option_label : string;
  option_description : string;
  option_value : string
}.

(** The comprehension of lines 17-41, over any list of models. *)
Definition options_of (models : list ModelInfo) : list SelectOption :=
  map (fun m => mkSelectOption (label_of (name m)) (description m) (name m)) models.

(** [SelectModelSelect.__init__]: the options of the menu. *)
Definition options : list SelectOption := options_of model_catalog.

(** The models [fetch_response] is typed for, lines 107-112. *)
Definition fetch_response_models : list string :=
  [ "@cf/meta/llama-2-7b-chat-fp16";
    "@cf/meta/llama-2-7b-chat-int8";
    "@cf/mistral/mistral-7b-instruct-v0.1";
    "@hf/thebloke/codellama-7b-instruct-awq" ].

Definition has_char (c : ascii) (s : string) : Prop :=
  In c (list_ascii_of_string s).

(** ** The image command *)

Inductive ImageEvent : Type :=
| ImDefer
| ImPost (url : string) (prompt : string)
| ImEdit (text : string) (filename : string) (attachment : list Byte.byte).

(** The image endpoint as seen from the bot: the request fails, or it is
    answered with some bytes, whatever the status. *)
Definition ImageService : Type := string -> string -> option (list Byte.byte).

Definition image_url : string :=
  "https://api.cloudflare.com/client/v4/accounts/5a7ec47b3dd59c0015f9d3a63447ee3a/ai/run/@cf/stabilityai/stable-diffusion-xl-base-1.0".

(** [generate_image], lines 204-215: the result and what was done, in
    order.  [bot.session] is [None] until [setup_hook] has run. *)
Definition generate_image (self : Bot) (service : ImageService) (prompt : string)
  : Res unit * list ImageEvent :=
  match session self with
  | None => (Raise AttributeError, [ImDefer])
  | Some _ =>
      match service image_url prompt with
      | None => (Raise ClientError, [ImDefer; ImPost image_url prompt])
      | Some raw_image_data =>
          (Ret tt, [ImDefer; ImPost image_url prompt;
                    ImEdit "Here is your image!" "image.png" raw_image_data])
      end
  end.

(** ** More notions for the statements *)

(** A session with further entries behind its history. *)
Definition extended (d : Document) (more : list Message) : Document :=
  mkDocument (thread_id d) (messages d ++ more) (model d).

(** A turn: the text that comes in and the text the service generates. *)
Definition turn_event (self : Bot) (tid : Z) (turn : string * string) : Invocation :=
  Inbound self (mock (snd turn)) (mkPlatformMessage false true (fst turn) tid).

Definition turn_entries (self : Bot) (turn : string * string) : list Message :=
  [asked_of self (fst turn); mkMessage assistant (JStr (snd turn))].

(** An event that shows nothing to the user and touches neither the
    collection nor the inference service. *)
Definition is_quiet (e : Event) : bool :=
  match e with
  | EvDefer | EvTyping _ | EvProcessCommands => true
  | _ => false
  end.

(** ** The threads of the platform *)

(** [interaction.message.create_thread], line 58, as the platform answers
    it: the thread started from a message has the id of that message, and a
    message starts one thread at most; a further request for the same message
    is refused, which the library raises as [HTTPException].  [threads] are
    the ids of the threads that exist. *)
Definition create_thread (threads : list Z) (origin : Z) : Res Z :=
  if existsb (Z.eqb origin) threads then Raise HTTPException else Ret origin.

(** The platform's threads and the bot. *)
Record Server : Type := mkServer {
  threads : list Z;
  world : World
}.

(** [SelectModelSelect.callback] with line 58 answered by the platform: an
    exception there ends the callback before anything is stored. *)
Definition select_model (model_name : string) (interaction : SelectInteraction)
    (s : Server) : Res unit * Server :=
  match interaction_message interaction with
  | None =>
      let (r, w) := callback model_name interaction 0 (world s) in
      (r, mkServer (threads s) w)
  | Some origin =>
      match create_thread (threads s) origin with
      | Raise e => (Raise e, mkServer (threads s) (snd (emit EvDefer (world s))))
      | Ret thread =>
          let (r, w) := callback model_name interaction thread (world s) in
          (r, mkServer (thread :: threads s) w)
      end
  end.

(** What reaches the bot from the platform. *)
Inductive Arrival : Type :=
| Selection (model_name : string) (interaction : SelectInteraction)
| Mention (self : Bot) (net : Inference) (message : PlatformMessage)
| Regeneration (self : Bot) (net : Inference) (channel : Z) (message : PlatformMessage).

Definition serve (a : Arrival) (s : Server) : Server :=
  match a with
  | Selection model_name interaction => snd (select_model model_name interaction s)
  | Mention self net message =>
      mkServer (threads s) (snd (on_message self net message (world s)))
  | Regeneration self net channel message =>
      mkServer (threads s) (snd (regenerate_response self net channel message (world s)))
  end.

Definition serve_all (arrivals : list Arrival) (s : Server) : Server :=
  fold_left (fun s a => serve a s) arrivals s.

(** Every session belongs to a thread of the platform, and no two sessions
    to the same thread. *)
Definition one_session_per_thread (s : Server) : Prop :=
  NoDup (map thread_id (conversations (world s))) /\
  (forall d, In d (conversations (world s)) -> In (thread_id d) (threads s)).

(** * Properties *)

(** ** The collection *)

Section CollectionFacts.
Variable tid : Z.
Variable m : Message.

Lemma update_one_push_absent (docs : Collection) :
  find_one tid docs = None -> update_one_push tid m docs = docs.
Proof.
  unfold find_one.
  induction docs as [|d ds IH]; simpl; [reflexivity|].
  destruct (matches tid d); [discriminate|].
  intros H. now rewrite IH.
Qed.

Lemma find_one_update_same (docs : Collection) (d : Document) :
  find_one tid docs = Some d ->
  find_one tid (update_one_push tid m docs) = Some (push m d).
Proof.
  unfold find_one.
  induction docs as [|d0 ds IH]; simpl; [discriminate|].
  destruct (matches tid d0) eqn:E.
  - intros [= ->]. simpl. unfold matches in *. simpl. now rewrite E.
  - intros H. simpl. rewrite E. now apply IH.
Qed.

Lemma find_one_update_other (docs : Collection) (other : Z) :
  other <> tid ->
  find_one other (update_one_push tid m docs) = find_one other docs.
Proof.
  intros Hne. unfold find_one.
  induction docs as [|d ds IH]; simpl; [reflexivity|].
  destruct (matches tid d) eqn:E; simpl.
  - unfold matches in *. simpl.
    apply Z.eqb_eq in E. rewrite E.
    destruct (Z.eqb_spec tid other); [congruence | reflexivity].
  - now rewrite IH.
Qed.

Lemma update_one_push_thread_ids (docs : Collection) :
  map thread_id (update_one_push tid m docs) = map thread_id docs.
Proof.
  induction docs as [|d ds IH]; simpl; [reflexivity|].
  destruct (matches tid d); simpl; [reflexivity | now rewrite IH].
Qed.

Lemma update_one_push_models (docs : Collection) :
  map model (update_one_push tid m docs) = map model docs.
Proof.
  induction docs as [|d ds IH]; simpl; [reflexivity|].
  destruct (matches tid d); simpl; [reflexivity | now rewrite IH].
Qed.

Lemma update_one_push_persona (docs : Collection) :
  Forall starts_with_persona docs ->
  Forall starts_with_persona (update_one_push tid m docs).
Proof.
  induction 1 as [|d ds Hd Hds IH]; simpl; [constructor|].
  destruct (matches tid d); constructor; trivial.
  unfold starts_with_persona in *. simpl.
  destruct (messages d); [discriminate | exact Hd].
Qed.
End CollectionFacts.

Lemma find_one_insert_fresh (d : Document) (docs : Collection) :
  find_one (thread_id d) docs = None ->
  find_one (thread_id d) (insert_one d docs) = Some d.
Proof.
  unfold find_one, insert_one.
  induction docs as [|d0 ds IH]; simpl.
  - intros _. unfold matches. now rewrite Z.eqb_refl.
  - destruct (matches (thread_id d) d0); [discriminate | exact IH].
Qed.

Lemma find_one_insert_present (tid : Z) (d d0 : Document) (docs : Collection) :
  find_one tid docs = Some d0 ->
  find_one tid (insert_one d docs) = Some d0.
Proof.
  unfold find_one, insert_one.
  induction docs as [|d1 ds IH]; simpl; [discriminate|].
  destruct (matches tid d1); [trivial | exact IH].
Qed.

(** ** [fetch_response] by cases *)

Section FetchResponse.
Variable self : Bot.
Variable net : Inference.
Variable model_name : string.
Variable message : string.
Variable tid : Z.

Let asked : Message :=
  mkMessage user (JStr (replace (user_mention self) "" message)).

Lemma fetch_response_unbound (w : World) :
  find_one tid (conversations w) = None ->
  fetch_response self net model_name message tid w = (Ret JNull, w).
Proof.
  intros H. unfold fetch_response, bind, db_find_one. now rewrite H.
Qed.

Lemma fetch_response_no_session (w : World) :
  session self = None ->
  fetch_response self net model_name message tid w = (Ret JNull, w).
Proof.
  intros H. unfold fetch_response, bind, db_find_one. rewrite H.
  now destruct (find_one tid (conversations w)).
Qed.

Lemma fetch_response_bound (w : World) (d : Document) (cs : ClientSession) :
  find_one tid (conversations w) = Some d ->
  session self = Some cs ->
  fetch_response self net model_name message tid w =
  match reply_of (net (run_url self model_name) (messages d ++ [asked])) with
  | Ret ai_message =>
      (Ret ai_message,
       mkWorld (update_one_push tid (mkMessage assistant ai_message)
                  (update_one_push tid asked (conversations w)))
               (log w ++ [EvPush tid asked;
                          EvPost (run_url self model_name) (messages d ++ [asked]);
                          EvPush tid (mkMessage assistant ai_message)]))
  | Raise e =>
      (Raise e,
       mkWorld (update_one_push tid asked (conversations w))
               (log w ++ [EvPush tid asked;
                          EvPost (run_url self model_name) (messages d ++ [asked])]))
  end.
Proof.
  intros Hd Hs.
  cbv [fetch_response bind db_find_one db_push post_json emit lift ret raise
       reply_of read_reply].
  rewrite Hd, Hs. cbn [conversations log]. fold asked.
  destruct (net (run_url self model_name) (messages d ++ [asked])) as [| |data];
    [now rewrite <- app_assoc | now rewrite <- app_assoc |].
  destruct (getitem data "result") as [result|e]; [|now rewrite <- app_assoc].
  destruct (getitem result "response") as [ai|e]; [|now rewrite <- app_assoc].
  destruct (getitem data "messages") as [ms|e]; [|now rewrite <- app_assoc].
  destruct (py_append ms _) as [x|e]; [|now rewrite <- app_assoc].
  cbn [conversations log]. now rewrite <- !app_assoc.
Qed.
End FetchResponse.

(** ** [str.replace] with an empty replacement *)

Section Replace.
Local Open Scope string_scope.

Lemma append_assoc (a b c : string) : (a ++ b) ++ c = a ++ (b ++ c).
Proof. induction a as [|x a IH]; simpl; [reflexivity | now rewrite IH]. Qed.

Lemma append_empty_r (a : string) : a ++ "" = a.
Proof. induction a as [|x a IH]; simpl; [reflexivity | now rewrite IH]. Qed.

Lemma length_append (a b : string) :
  String.length (a ++ b) = (String.length a + String.length b)%nat.
Proof. induction a as [|x a IH]; simpl; [reflexivity | now rewrite IH]. Qed.

Lemma prefix_append_self (t s : string) : String.prefix t (t ++ s) = true.
Proof.
  induction t as [|x t IH]; simpl; [now destruct s|].
  destruct (ascii_dec x x); [exact IH | congruence].
Qed.

(** Whether [t] is a prefix is decided by the first [length t]
    characters. *)
Lemma prefix_append_cut (t : string) :
  forall a b, (String.length t <= String.length a)%nat ->
              String.prefix t (a ++ b) = String.prefix t a.
Proof.
  induction t as [|x t IH]; intros a b Hlen.
  - now destruct a, b.
  - destruct a as [|y a]; simpl in Hlen; [lia|].
    simpl. destruct (ascii_dec x y); [|reflexivity].
    apply IH. lia.
Qed.

Lemma prefix_append_mono (t : string) :
  forall a b, String.prefix t a = true -> String.prefix t (a ++ b) = true.
Proof.
  induction t as [|y t IH]; intros a b H; [now destruct (a ++ b)|].
  destruct a as [|z a]; [discriminate|].
  simpl in *. destruct (ascii_dec y z); [now apply IH | discriminate].
Qed.

Lemma replace_go_skip (old a : string) :
  forall s, replace_go old "" (String.length a) (a ++ s) = replace_go old "" O s.
Proof.
  induction a as [|x a IH]; intros s; simpl.
  - now destruct s.
  - apply IH.
Qed.

Lemma replace_go_front (x : ascii) (t s : string) :
  replace_go (String x t) "" O (String x t ++ s) = replace_go (String x t) "" O s.
Proof.
  change (String x t ++ s) with (String x (t ++ s)).
  cbn [replace_go].
  change (String x (t ++ s)) with (String x t ++ s).
  rewrite prefix_append_self. simpl. apply replace_go_skip.
Qed.

Variable token : string.
Hypothesis token_not_empty : token <> "".

Lemma replace_token : forall s, replace token "" s = replace_go token "" O s.
Proof. unfold replace. destruct token; [congruence | reflexivity]. Qed.

(** An occurrence at the front is dropped and the scan goes on behind
    it. *)
Lemma replace_go_occurrence (s : string) :
  replace_go token "" O (token ++ s) = replace_go token "" O s.
Proof.
  destruct token as [|x t]; [congruence | apply replace_go_front].
Qed.

(** A segment in which no occurrence begins is copied, up to the token
    that follows it. *)
Lemma replace_go_segment (seg : string) :
  forall rest,
    starts_within token seg = false ->
    replace_go token "" O (seg ++ token ++ rest)
    = seg ++ replace_go token "" O (token ++ rest).
Proof.
  induction seg as [|x seg IH]; intros rest H; [reflexivity|].
  cbn [starts_within] in H. apply orb_false_iff in H as [Hhere Hlater].
  change (String x seg ++ token ++ rest) with (String x (seg ++ token ++ rest)).
  cbn [replace_go].
  change (String x (seg ++ token ++ rest)) with (String x seg ++ token ++ rest).
  rewrite <- append_assoc, prefix_append_cut, Hhere.
  - rewrite (IH rest Hlater). reflexivity.
  - rewrite length_append. lia.
Qed.

Lemma replace_go_last_segment (seg : string) :
  starts_within token seg = false ->
  replace_go token "" O seg = seg.
Proof.
  induction seg as [|x seg IH]; intros H; [reflexivity|].
  cbn [starts_within] in H. apply orb_false_iff in H as [Hhere Hlater].
  cbn [replace_go].
  destruct (String.prefix token (String x seg)) eqn:P.
  - apply prefix_append_mono with (b := token) in P. congruence.
  - f_equal. now apply IH.
Qed.

(** The text is segments with the token between them, and no occurrence
    of the token begins inside a segment: what is left is the segments. *)
Lemma replace_segments (segs : list string) :
  Forall (fun seg => starts_within token seg = false) segs ->
  replace token "" (String.concat token segs) = String.concat "" segs.
Proof.
  rewrite replace_token.
  induction 1 as [|seg segs Hseg Hsegs IH]; [reflexivity|].
  destruct segs as [|seg' segs].
  - simpl. now apply replace_go_last_segment.
  - change (String.concat token (seg :: seg' :: segs))
      with (seg ++ token ++ String.concat token (seg' :: segs)).
    change (String.concat "" (seg :: seg' :: segs))
      with (seg ++ "" ++ String.concat "" (seg' :: segs)).
    rewrite replace_go_segment by exact Hseg.
    rewrite replace_go_occurrence, IH. reflexivity.
Qed.
End Replace.

Lemma replace_clean (token s : string) :
  starts_within token s = false -> replace token "" s = s.
Proof.
  destruct token as [|x t].
  - destruct s as [|y s]; [reflexivity | simpl; discriminate].
  - intros H. rewrite replace_token by discriminate.
    now apply replace_go_last_segment.
Qed.

(** ** The handlers by cases *)

Section Handlers.
Variable self : Bot.
Variable net : Inference.

Let asked_of := asked_of self.

Lemma on_message_ignored (message : PlatformMessage) (w : World) :
  author_bot message || negb (mentions_bot message) || is_empty (text message) = true ->
  on_message self net message w
  = (Ret tt, mkWorld (conversations w) (log w ++ [EvProcessCommands])).
Proof. intros H. unfold on_message. now rewrite H. Qed.

Lemma on_message_unbound (message : PlatformMessage) (w : World) :
  find_one (channel_id message) (conversations w) = None ->
  on_message self net message w
  = (Ret tt, mkWorld (conversations w) (log w ++ [EvProcessCommands])).
Proof.
  intros H. unfold on_message.
  destruct (_ || _ || _); [reflexivity|].
  unfold bind, db_find_one. now rewrite H.
Qed.

Lemma on_message_no_session (message : PlatformMessage) (w : World) (d : Document) :
  author_bot message || negb (mentions_bot message) || is_empty (text message) = false ->
  find_one (channel_id message) (conversations w) = Some d ->
  session self = None ->
  on_message self net message w
  = (Ret tt, mkWorld (conversations w) (log w ++ [EvTyping (channel_id message)])).
Proof.
  intros Hg Hd Hs. unfold on_message. rewrite Hg.
  unfold bind at 1. unfold db_find_one. rewrite Hd.
  unfold bind at 1. unfold emit at 1.
  unfold bind. now rewrite fetch_response_no_session.
Qed.

Lemma on_message_bound (message : PlatformMessage) (w : World)
      (d : Document) (cs : ClientSession) :
  author_bot message || negb (mentions_bot message) || is_empty (text message) = false ->
  find_one (channel_id message) (conversations w) = Some d ->
  session self = Some cs ->
  let tid := channel_id message in
  let asked := asked_of (text message) in
  let url := run_url self (model d) in
  on_message self net message w =
  match reply_of (net url (messages d ++ [asked])) with
  | Ret ai_message =>
      (Ret tt,
       mkWorld (update_one_push tid (mkMessage assistant ai_message)
                  (update_one_push tid asked (conversations w)))
               (log w ++ [EvTyping tid; EvPush tid asked;
                          EvPost url (messages d ++ [asked]);
                          EvPush tid (mkMessage assistant ai_message)]
                      ++ shown EvReply ai_message))
  | Raise e =>
      (Raise e,
       mkWorld (update_one_push tid asked (conversations w))
               (log w ++ [EvTyping tid; EvPush tid asked;
                          EvPost url (messages d ++ [asked])]))
  end.
Proof.
  intros Hg Hd Hs. cbv zeta. unfold on_message. rewrite Hg.
  unfold bind at 1. unfold db_find_one. rewrite Hd.
  unfold bind at 1. unfold emit at 1.
  unfold bind.
  rewrite (fetch_response_bound self net (model d) (text message) (channel_id message)
             (mkWorld (conversations w) (log w ++ [EvTyping (channel_id message)]))
             d cs Hd Hs).
  fold (asked_of (text message)).
  cbn [conversations log].
  destruct (reply_of _) as [ai|e].
  - rewrite <- app_assoc. cbn [app].
    destruct ai; unfold emit, ret; cbn [conversations log shown];
      rewrite <- ?app_assoc; cbn [app]; rewrite ?app_nil_r; reflexivity.
  - rewrite <- app_assoc. reflexivity.
Qed.
Lemma regenerate_unbound (channel : Z) (message : PlatformMessage) (w : World) :
  find_one channel (conversations w) = None ->
  regenerate_response self net channel message w
  = (Ret tt, mkWorld (conversations w)
                     (log w ++ [EvDefer; EvEditOriginal (JStr not_generated)])).
Proof.
  intros H. unfold regenerate_response, bind, emit, db_find_one.
  cbn [conversations log]. rewrite H. cbn beta iota. cbn [conversations log].
  now rewrite <- app_assoc.
Qed.

Lemma regenerate_invalid (channel : Z) (message : PlatformMessage) (w : World)
      (d : Document) :
  find_one channel (conversations w) = Some d ->
  author_bot message || is_empty (text message) = true ->
  regenerate_response self net channel message w
  = (Ret tt, mkWorld (conversations w)
                     (log w ++ [EvDefer; EvEditOriginal (JStr not_my_reply)])).
Proof.
  intros Hd Hg. unfold regenerate_response, bind, emit, db_find_one.
  cbn [conversations log]. rewrite Hd, Hg. cbn beta iota. cbn [conversations log].
  now rewrite <- app_assoc.
Qed.

Lemma regenerate_no_session (channel : Z) (message : PlatformMessage) (w : World)
      (d : Document) :
  find_one channel (conversations w) = Some d ->
  author_bot message || is_empty (text message) = false ->
  session self = None ->
  regenerate_response self net channel message w
  = (Ret tt, mkWorld (conversations w) (log w ++ [EvDefer; EvTyping channel])).
Proof.
  intros Hd Hg Hs. unfold regenerate_response.
  unfold bind at 1. unfold emit at 1.
  unfold bind at 1. unfold db_find_one. cbn [conversations log].
  rewrite Hd, Hg.
  unfold bind at 1. unfold emit at 1. cbn [conversations log].
  unfold bind. rewrite fetch_response_no_session by exact Hs.
  unfold ret. now rewrite <- app_assoc.
Qed.

Lemma regenerate_bound (channel : Z) (message : PlatformMessage) (w : World)
      (d : Document) (cs : ClientSession) :
  find_one channel (conversations w) = Some d ->
  author_bot message || is_empty (text message) = false ->
  session self = Some cs ->
  let asked := asked_of (text message) in
  let url := run_url self (model d) in
  regenerate_response self net channel message w =
  match reply_of (net url (messages d ++ [asked])) with
  | Ret ai_message =>
      (Ret tt,
       mkWorld (update_one_push channel (mkMessage assistant ai_message)
                  (update_one_push channel asked (conversations w)))
               (log w ++ [EvDefer; EvTyping channel; EvPush channel asked;
                          EvPost url (messages d ++ [asked]);
                          EvPush channel (mkMessage assistant ai_message)]
                      ++ shown EvEditOriginal ai_message))
  | Raise e =>
      (Raise e,
       mkWorld (update_one_push channel asked (conversations w))
               (log w ++ [EvDefer; EvTyping channel; EvPush channel asked;
                          EvPost url (messages d ++ [asked])]))
  end.
Proof.
  intros Hd Hg Hs. cbv zeta. unfold regenerate_response.
  unfold bind at 1. unfold emit at 1.
  unfold bind at 1. unfold db_find_one. cbn [conversations log].
  rewrite Hd, Hg.
  unfold bind at 1. unfold emit at 1. cbn [conversations log].
  unfold bind.
  rewrite (fetch_response_bound self net (model d) (text message) channel
             (mkWorld (conversations w) ((log w ++ [EvDefer]) ++ [EvTyping channel]))
             d cs Hd Hs).
  fold (asked_of (text message)).
  cbn [conversations log].
  destruct (reply_of _) as [ai|e].
  - rewrite <- !app_assoc. cbn [app].
    destruct ai; unfold emit, ret; cbn [conversations log shown];
      rewrite <- ?app_assoc; cbn [app]; rewrite ?app_nil_r; reflexivity.
  - rewrite <- !app_assoc. reflexivity.
Qed.
End Handlers.

(** ** Histories *)

Lemma history_after_push (tid : Z) (m : Message) (docs : Collection) (d : Document) :
  find_one tid docs = Some d ->
  option_map messages (find_one tid (update_one_push tid m docs))
  = Some (messages d ++ [m]).
Proof. intros H. now rewrite (find_one_update_same tid m docs d H). Qed.

Lemma history_after_exchange (tid : Z) (m1 m2 : Message) (docs : Collection)
      (d : Document) :
  find_one tid docs = Some d ->
  option_map messages
    (find_one tid (update_one_push tid m2 (update_one_push tid m1 docs)))
  = Some (messages d ++ [m1; m2]).
Proof.
  intros H.
  rewrite (find_one_update_same tid m2 _ (push m1 d)).
  - simpl. now rewrite <- app_assoc.
  - now apply find_one_update_same.
Qed.

Lemma reply_of_mock (generated url : string) (payload : list Message) :
  reply_of (mock generated url payload) = Ret (JStr generated).
Proof. reflexivity. Qed.

Lemma sessions_of_insert (d : Document) (tid : Z) (w : World) :
  List.length (filter (matches tid) (insert_one d (conversations w)))
  = (sessions_of tid w + (if matches tid d then 1 else 0))%nat.
Proof.
  unfold sessions_of, insert_one. rewrite filter_app, length_app. simpl.
  now destruct (matches tid d).
Qed.

(** ** Regeneration: what is refused *)

(** C5: regeneration in a thread that has no session tells the user that
    the message is not one the bot answered, and leaves the collection as it
    was: nothing is written and the inference service is not called. *)
Theorem regeneration_without_session
        (self : Bot) (net : Inference) (channel : Z) (message : PlatformMessage)
        (w : World) :
  find_one channel (conversations w) = None ->
  regenerate_response self net channel message w
  = (Ret tt,
     mkWorld (conversations w)
             (log w ++ [EvDefer; EvEditOriginal (JStr not_generated)])).
Proof. apply regenerate_unbound. Qed.

Lemma regeneration_without_session_witness :
  find_one 7 (conversations initial) = None /\
  regenerate_response (mkBot "<@1>" "acc" (Some (mkClientSession "Bearer t")))
                      (mock "yo") 7 (mkPlatformMessage false false "hello" 7) initial
  = (Ret tt, mkWorld [] [EvDefer; EvEditOriginal (JStr not_generated)]).
Proof.
  split; [reflexivity|].
  apply (regeneration_without_session _ _ 7 _ initial). reflexivity.
Defined.

(** C6: with a session for the thread, regeneration on a message written by
    a bot, or on a message without text, answers that the command is for a
    message the bot replied to, and leaves the collection as it was. *)
Theorem regeneration_invalid_target
        (self : Bot) (net : Inference) (channel : Z) (message : PlatformMessage)
        (w : World) (d : Document) :
  find_one channel (conversations w) = Some d ->
  author_bot message = true \/ text message = "" ->
  regenerate_response self net channel message w
  = (Ret tt,
     mkWorld (conversations w)
             (log w ++ [EvDefer; EvEditOriginal (JStr not_my_reply)])).
Proof.
  intros Hd Hbad. apply regenerate_invalid with (d := d); [exact Hd|].
  destruct Hbad as [-> | ->]; [reflexivity | apply orb_true_r].
Qed.

Lemma regeneration_invalid_target_witness :
  let d := mkDocument 7 [system_message] "@cf/meta/llama-2-7b-chat-int8" in
  let self := mkBot "<@1>" "acc" (Some (mkClientSession "Bearer t")) in
  regenerate_response self (mock "yo") 7 (mkPlatformMessage true false "sup" 7)
                      (mkWorld [d] [])
  = (Ret tt, mkWorld [d] [EvDefer; EvEditOriginal (JStr not_my_reply)]) /\
  regenerate_response self (mock "yo") 7 (mkPlatformMessage false false "" 7)
                      (mkWorld [d] [])
  = (Ret tt, mkWorld [d] [EvDefer; EvEditOriginal (JStr not_my_reply)]).
Proof.
  intros d self. split.
  - apply (regeneration_invalid_target self _ 7 _ (mkWorld [d] []) d);
      [reflexivity | left; reflexivity].
  - apply (regeneration_invalid_target self _ 7 _ (mkWorld [d] []) d);
      [reflexivity | right; reflexivity].
Defined.

(** ** Creation *)

Lemma callback_creates (model_name : string) (origin : Z) (who : string)
      (thread : Z) (w : World) :
  callback model_name (mkSelectInteraction (Some origin) who) thread w
  = (Ret tt,
     mkWorld (conversations w ++ [mkDocument thread [system_message] model_name])
             (log w ++ [EvDefer;
                        EvCreateThread ("Chat with " ++ model_name)%string;
                        EvEditOriginal (JStr
                          ("Hi " ++ who ++ "! You are now chatting with " ++ model_name
                             ++ "! @mention me for me to process your message!")%string);
                        EvAddUser thread;
                        EvInsert (mkDocument thread [system_message] model_name)])).
Proof.
  unfold callback, bind, emit, db_insert_one, insert_one.
  cbn [interaction_message interaction_user_mention conversations log].
  now rewrite <- !app_assoc.
Qed.

Lemma callback_collection (model_name : string) (interaction : SelectInteraction)
      (thread : Z) (w : World) :
  conversations (snd (callback model_name interaction thread w)) = conversations w
  \/ conversations (snd (callback model_name interaction thread w))
     = conversations w ++ [mkDocument thread [system_message] model_name].
Proof.
  destruct interaction as [[origin|] who].
  - right. now rewrite callback_creates.
  - left. reflexivity.
Qed.

(** ** The scenarios *)

Lemma asked_of_clean (self : Bot) (raw : string) :
  starts_within (user_mention self) raw = false ->
  asked_of self raw = mkMessage user (JStr raw).
Proof. intros H. unfold asked_of. now rewrite replace_clean. Qed.

(** C1, scenario A: a session is created for model [M1] in a thread that
    had none, so that its history is the system entry; the text "hello"
    comes in and the inference service answers "sup".  Then
    [fetch_response] returns "sup", the stored history is the system entry,
    the user entry "hello" and the assistant entry "sup", and [on_message]
    replies with "sup". *)
Theorem scenario_A
        (self : Bot) (cs : ClientSession) (M1 who : string) (origin thread : Z)
        (w0 : World) :
  find_one thread (conversations w0) = None ->
  session self = Some cs ->
  starts_within (user_mention self) "hello" = false ->
  let w1 := snd (callback M1 (mkSelectInteraction (Some origin) who) thread w0) in
  let hello := mkMessage user (JStr "hello") in
  let sup := mkMessage assistant (JStr "sup") in
  history thread w1 = Some [system_message] /\
  fst (fetch_response self (mock "sup") M1 "hello" thread w1) = Ret (JStr "sup") /\
  let (r, w2) := on_message self (mock "sup")
                            (mkPlatformMessage false true "hello" thread) w1 in
  r = Ret tt /\
  history thread w2 = Some [system_message; hello; sup] /\
  log w2 = log w1 ++ [EvTyping thread;
                      EvPush thread hello;
                      EvPost (run_url self M1) [system_message; hello];
                      EvPush thread sup;
                      EvReply (JStr "sup")].
Proof.
  intros Hfresh Hs Hclean. cbv zeta.
  rewrite callback_creates. cbn [snd].
  set (d := mkDocument thread [system_message] M1).
  set (w1 := mkWorld _ _).
  assert (Hd : find_one thread (conversations w1) = Some d)
    by (apply (find_one_insert_fresh d); exact Hfresh).
  split; [|split].
  - unfold history. now rewrite Hd.
  - rewrite (fetch_response_bound self _ M1 "hello" thread w1 d cs Hd Hs).
    now rewrite reply_of_mock.
  - rewrite (on_message_bound self _ (mkPlatformMessage false true "hello" thread)
               w1 d cs eq_refl Hd Hs).
    cbn [text channel_id model messages d].
    rewrite reply_of_mock, (asked_of_clean self "hello" Hclean).
    repeat split.
    unfold history. cbn [conversations].
    now rewrite (history_after_exchange thread _ _ _ d Hd).
Qed.

Lemma scenario_A_witness :
  let self := mkBot "<@1>" "acc" (Some (mkClientSession "Bearer t")) in
  let M1 := "@cf/meta/llama-2-7b-chat-fp16" in
  let w1 := snd (callback M1 (mkSelectInteraction (Some 5) "<@9>") 7 initial) in
  let hello := mkMessage user (JStr "hello") in
  let sup := mkMessage assistant (JStr "sup") in
  history 7 w1 = Some [system_message] /\
  fst (fetch_response self (mock "sup") M1 "hello" 7 w1) = Ret (JStr "sup") /\
  let (r, w2) := on_message self (mock "sup") (mkPlatformMessage false true "hello" 7) w1 in
  r = Ret tt /\
  history 7 w2 = Some [system_message; hello; sup] /\
  log w2 = log w1 ++ [EvTyping 7;
                      EvPush 7 hello;
                      EvPost (run_url self M1) [system_message; hello];
                      EvPush 7 sup;
                      EvReply (JStr "sup")].
Proof.
  intros self M1.
  exact (scenario_A self (mkClientSession "Bearer t") M1 "<@9>" 5 7 initial
                    eq_refl eq_refl eq_refl).
Defined.

(** C7, scenario B: the history is the system entry, "hello", "sup";
    regeneration on the user's message "hello" with the inference service
    answering "yo" keeps these three entries, puts a second user entry
    "hello" and the assistant entry "yo" behind them, and edits the shown
    message to "yo". *)
Theorem scenario_B
        (self : Bot) (cs : ClientSession) (M1 : string) (thread : Z)
        (pinged : bool) (w : World) :
  let hello := mkMessage user (JStr "hello") in
  let sup := mkMessage assistant (JStr "sup") in
  let yo := mkMessage assistant (JStr "yo") in
  find_one thread (conversations w)
  = Some (mkDocument thread [system_message; hello; sup] M1) ->
  session self = Some cs ->
  starts_within (user_mention self) "hello" = false ->
  let (r, w') := regenerate_response self (mock "yo") thread
                   (mkPlatformMessage false pinged "hello" thread) w in
  r = Ret tt /\
  history thread w' = Some [system_message; hello; sup; hello; yo] /\
  log w' = log w ++ [EvDefer; EvTyping thread;
                     EvPush thread hello;
                     EvPost (run_url self M1) [system_message; hello; sup; hello];
                     EvPush thread yo;
                     EvEditOriginal (JStr "yo")].
Proof.
  intros hello sup yo Hd Hs Hclean.
  rewrite (regenerate_bound self _ thread (mkPlatformMessage false pinged "hello" thread)
             w _ cs Hd eq_refl Hs).
  cbn [text model messages].
  rewrite reply_of_mock, (asked_of_clean self "hello" Hclean).
  repeat split.
  unfold history. cbn [conversations].
  now rewrite (history_after_exchange thread _ _ _ _ Hd).
Qed.

Lemma scenario_B_witness :
  let self := mkBot "<@1>" "acc" (Some (mkClientSession "Bearer t")) in
  let M1 := "@cf/meta/llama-2-7b-chat-fp16" in
  let hello := mkMessage user (JStr "hello") in
  let sup := mkMessage assistant (JStr "sup") in
  let yo := mkMessage assistant (JStr "yo") in
  let w := mkWorld [mkDocument 7 [system_message; hello; sup] M1] [] in
  let (r, w') := regenerate_response self (mock "yo") 7
                   (mkPlatformMessage false false "hello" 7) w in
  r = Ret tt /\
  history 7 w' = Some [system_message; hello; sup; hello; yo] /\
  log w' = log w ++ [EvDefer; EvTyping 7;
                     EvPush 7 hello;
                     EvPost (run_url self M1) [system_message; hello; sup; hello];
                     EvPush 7 yo;
                     EvEditOriginal (JStr "yo")].
Proof.
  intros self M1 hello sup yo w.
  exact (scenario_B self (mkClientSession "Bearer t") M1 7 false w
                    eq_refl eq_refl eq_refl).
Defined.

(** ** A failed inference call *)

(** C4, as the code has it: a message for the bot comes in on a thread with
    a session, and the inference call fails in a way that raises (no
    connection, a body that is not JSON, or a body without the fields the
    code reads).  Then [on_message] ends with the exception: it returns no
    value and replies nothing, and the only entry added to the stored history
    is the user entry; no assistant entry is added. *)
Theorem failed_inference_no_assistant
        (self : Bot) (net : Inference) (message : PlatformMessage) (w : World)
        (d : Document) (cs : ClientSession) :
  author_bot message || negb (mentions_bot message) || is_empty (text message) = false ->
  find_one (channel_id message) (conversations w) = Some d ->
  session self = Some cs ->
  let tid := channel_id message in
  let asked := asked_of self (text message) in
  let url := run_url self (model d) in
  inference_fails (net url (messages d ++ [asked])) ->
  let (r, w') := on_message self net message w in
  (exists e, r = Raise e) /\
  conversations w' = update_one_push tid asked (conversations w) /\
  history tid w' = Some (messages d ++ [asked]) /\
  log w' = log w ++ [EvTyping tid; EvPush tid asked; EvPost url (messages d ++ [asked])].
Proof.
  intros Hg Hd Hs tid asked url [e He].
  rewrite (on_message_bound self net message w d cs Hg Hd Hs).
  fold tid asked url. rewrite He.
  repeat split.
  - now exists e.
  - unfold history. cbn [conversations]. now apply history_after_push.
Qed.

Lemma failed_inference_no_assistant_witness :
  let self := mkBot "<@1>" "acc" (Some (mkClientSession "Bearer t")) in
  let d := mkDocument 7 [system_message] "@cf/meta/llama-2-7b-chat-fp16" in
  let hello := mkMessage user (JStr " hello") in
  let url := run_url self (model d) in
  let (r, w') := on_message self (fun _ _ => ConnectionFailed)
                            (mkPlatformMessage false true "<@1> hello" 7)
                            (mkWorld [d] []) in
  (exists e, r = Raise e) /\
  conversations w' = [mkDocument 7 [system_message; hello] (model d)] /\
  history 7 w' = Some [system_message; hello] /\
  log w' = [EvTyping 7; EvPush 7 hello; EvPost url [system_message; hello]].
Proof.
  intros self d hello url.
  refine (failed_inference_no_assistant self (fun _ _ => ConnectionFailed)
            (mkPlatformMessage false true "<@1> hello" 7) (mkWorld [d] []) d
            (mkClientSession "Bearer t") eq_refl eq_refl eq_refl _).
  exists ClientError. reflexivity.
Defined.

(** ** What the handlers write *)

Section Writes.
Variable self : Bot.
Variable net : Inference.

(** A message handler writes nothing, or the user entry, or the user entry
    and then the assistant entry, all to the session of its thread. *)
Lemma on_message_writes (message : PlatformMessage) (w : World) :
  exists ms,
    conversations (snd (on_message self net message w))
    = pushes (channel_id message) ms (conversations w).
Proof.
  destruct (author_bot message || negb (mentions_bot message)
            || is_empty (text message)) eqn:Hg.
  { exists []. now rewrite on_message_ignored. }
  destruct (find_one (channel_id message) (conversations w)) as [d|] eqn:Hd.
  2:{ exists []. now rewrite on_message_unbound. }
  destruct (session self) as [cs|] eqn:Hs.
  2:{ exists []. now rewrite (on_message_no_session self net message w d). }
  rewrite (on_message_bound self net message w d cs Hg Hd Hs).
  destruct (reply_of _) as [ai|e].
  - now exists [asked_of self (text message); mkMessage assistant ai].
  - now exists [asked_of self (text message)].
Qed.

Lemma regenerate_writes (channel : Z) (message : PlatformMessage) (w : World) :
  exists ms,
    conversations (snd (regenerate_response self net channel message w))
    = pushes channel ms (conversations w).
Proof.
  destruct (find_one channel (conversations w)) as [d|] eqn:Hd.
  2:{ exists []. now rewrite regenerate_unbound. }
  destruct (author_bot message || is_empty (text message)) eqn:Hg.
  { exists []. now rewrite (regenerate_invalid self net channel message w d). }
  destruct (session self) as [cs|] eqn:Hs.
  2:{ exists []. now rewrite (regenerate_no_session self net channel message w d). }
  rewrite (regenerate_bound self net channel message w d cs Hd Hg Hs).
  destruct (reply_of _) as [ai|e].
  - now exists [asked_of self (text message); mkMessage assistant ai].
  - now exists [asked_of self (text message)].
Qed.
End Writes.

Lemma pushes_thread_ids (tid : Z) (ms : list Message) :
  forall docs, map thread_id (pushes tid ms docs) = map thread_id docs.
Proof.
  unfold pushes. induction ms as [|m ms IH]; intros docs; simpl; [reflexivity|].
  now rewrite IH, update_one_push_thread_ids.
Qed.

Lemma pushes_models (tid : Z) (ms : list Message) :
  forall docs, map model (pushes tid ms docs) = map model docs.
Proof.
  unfold pushes. induction ms as [|m ms IH]; intros docs; simpl; [reflexivity|].
  now rewrite IH, update_one_push_models.
Qed.

Lemma pushes_persona (tid : Z) (ms : list Message) :
  forall docs, Forall starts_with_persona docs ->
               Forall starts_with_persona (pushes tid ms docs).
Proof.
  unfold pushes. induction ms as [|m ms IH]; intros docs H; simpl; [exact H|].
  apply IH. now apply update_one_push_persona.
Qed.

Lemma handle_persona (i : Invocation) (w : World) :
  Forall starts_with_persona (conversations w) ->
  Forall starts_with_persona (conversations (snd (handle i w))).
Proof.
  intros H. destruct i as [model_name interaction thread | self net message
                          | self net channel message]; simpl.
  - destruct (callback_collection model_name interaction thread w) as [-> | ->];
      [exact H|].
    apply Forall_app. split; [exact H|]. now repeat constructor.
  - destruct (on_message_writes self net message w) as [ms ->].
    now apply pushes_persona.
  - destruct (regenerate_writes self net channel message w) as [ms ->].
    now apply pushes_persona.
Qed.

Lemma run_all_persona (events : list Invocation) :
  forall w, Forall starts_with_persona (conversations w) ->
            Forall starts_with_persona (conversations (run_all events w)).
Proof.
  unfold run_all.
  induction events as [|i events IH]; intros w Hw; simpl; [exact Hw|].
  apply IH. now apply handle_persona.
Qed.

(** ** The invariants of a session *)

(** C2: the callback that creates a session stores a history of one entry,
    the system entry with the persona; and whatever events the bot handles
    afterwards, starting from an empty collection, every stored session
    still has that entry first. *)
Theorem system_entry_stays_first :
  (forall model_name origin who thread w,
      conversations
        (snd (callback model_name (mkSelectInteraction (Some origin) who) thread w))
      = conversations w ++ [mkDocument thread [system_message] model_name]) /\
  role system_message = system /\
  (forall events,
      Forall (fun d => hd_error (messages d) = Some system_message)
             (conversations (run_all events initial))).
Proof.
  split; [|split].
  - intros. now rewrite callback_creates.
  - reflexivity.
  - intros events. apply (run_all_persona events initial). constructor.
Qed.

(** C8: a message handler and the regeneration handler leave the
    [thread_id] and the [model] of every stored session as they were; they
    add and remove no session. *)
Theorem appends_keep_thread_and_model
        (self : Bot) (net : Inference) (channel : Z) (message : PlatformMessage)
        (w : World) :
  let after_message := conversations (snd (on_message self net message w)) in
  let after_regeneration :=
    conversations (snd (regenerate_response self net channel message w)) in
  (map thread_id after_message = map thread_id (conversations w) /\
   map model after_message = map model (conversations w)) /\
  (map thread_id after_regeneration = map thread_id (conversations w) /\
   map model after_regeneration = map model (conversations w)).
Proof.
  cbv zeta.
  destruct (on_message_writes self net message w) as [ms ->].
  destruct (regenerate_writes self net channel message w) as [ms' ->].
  now rewrite !pushes_thread_ids, !pushes_models.
Qed.

(** ** The order of the writes and the inference call *)

Lemma shown_cases (display : json -> Event) (ai : json) :
  shown display ai = [] \/ shown display ai = [display ai].
Proof. destruct ai; simpl; auto. Qed.

Section Logs.
Variable self : Bot.
Variable net : Inference.

(** The log of one message handler. *)
Lemma on_message_log (message : PlatformMessage) (docs : Collection) :
  let tid := channel_id message in
  let l := log (snd (on_message self net message (mkWorld docs []))) in
  l = [EvProcessCommands] \/
  l = [EvTyping tid] \/
  exists u url h,
    role u = user /\
    (l = [EvTyping tid; EvPush tid u; EvPost url h] \/
     exists ai,
       l = [EvTyping tid; EvPush tid u; EvPost url h;
            EvPush tid (mkMessage assistant ai)] \/
       l = [EvTyping tid; EvPush tid u; EvPost url h;
            EvPush tid (mkMessage assistant ai); EvReply ai]).
Proof.
  cbv zeta. set (w := mkWorld docs []).
  destruct (author_bot message || negb (mentions_bot message)
            || is_empty (text message)) eqn:Hg.
  { left. now rewrite on_message_ignored. }
  destruct (find_one (channel_id message) (conversations w)) as [d|] eqn:Hd.
  2:{ left. now rewrite on_message_unbound. }
  destruct (session self) as [cs|] eqn:Hs.
  2:{ right; left. now rewrite (on_message_no_session self net message w d). }
  right; right.
  exists (asked_of self (text message)), (run_url self (model d)),
         (messages d ++ [asked_of self (text message)]).
  split; [reflexivity|].
  rewrite (on_message_bound self net message w d cs Hg Hd Hs).
  destruct (reply_of _) as [ai|e]; [|now left].
  right. exists ai. cbn [snd log w app].
  destruct (shown_cases EvReply ai) as [-> | ->]; [now left | now right].
Qed.

(** The log of one regeneration. *)
Lemma regenerate_log (channel : Z) (message : PlatformMessage) (docs : Collection) :
  let l := log (snd (regenerate_response self net channel message (mkWorld docs []))) in
  (exists shown_text, l = [EvDefer; EvEditOriginal shown_text]) \/
  l = [EvDefer; EvTyping channel] \/
  exists u url h,
    role u = user /\
    (l = [EvDefer; EvTyping channel; EvPush channel u; EvPost url h] \/
     exists ai,
       l = [EvDefer; EvTyping channel; EvPush channel u; EvPost url h;
            EvPush channel (mkMessage assistant ai)] \/
       l = [EvDefer; EvTyping channel; EvPush channel u; EvPost url h;
            EvPush channel (mkMessage assistant ai); EvEditOriginal ai]).
Proof.
  cbv zeta. set (w := mkWorld docs []).
  destruct (find_one channel (conversations w)) as [d|] eqn:Hd.
  2:{ left. exists (JStr not_generated). now rewrite regenerate_unbound. }
  destruct (author_bot message || is_empty (text message)) eqn:Hg.
  { left. exists (JStr not_my_reply).
    now rewrite (regenerate_invalid self net channel message w d). }
  destruct (session self) as [cs|] eqn:Hs.
  2:{ right; left. now rewrite (regenerate_no_session self net channel message w d). }
  right; right.
  exists (asked_of self (text message)), (run_url self (model d)),
         (messages d ++ [asked_of self (text message)]).
  split; [reflexivity|].
  rewrite (regenerate_bound self net channel message w d cs Hd Hg Hs).
  destruct (reply_of _) as [ai|e]; [|now left].
  right. exists ai. cbn [snd log w app].
  destruct (shown_cases EvEditOriginal ai) as [-> | ->]; [now left | now right].
Qed.
End Logs.

(** Going through a log of known length position by position. *)
Ltac at_index i H :=
  repeat (destruct i as [|i]; cbn in H; [injection H as <- |]);
  try (destruct i; discriminate H).

Ltac earlier_event n :=
  exists n; eexists; split; [reflexivity | split; [reflexivity | lia]].

Ltac order_by_cases :=
  split;
  [ let i := fresh "i" in
    let j := fresh "j" in
    let Hi := fresh "Hi" in
    let Hj := fresh "Hj" in
    let Hp := fresh "Hp" in
    let Hq := fresh "Hq" in
    intros i j ? ? Hi Hj Hp Hq;
    at_index i Hi; cbn in Hp; try discriminate Hp;
    at_index j Hj; cbn in Hq; try discriminate Hq;
    lia
  | let j := fresh "j" in
    let Hj := fresh "Hj" in
    let Hq := fresh "Hq" in
    intros j ? Hj Hq;
    at_index j Hj; cbn in Hq; try discriminate Hq;
    first [ earlier_event 0%nat | earlier_event 1%nat | earlier_event 2%nat
          | earlier_event 3%nat | earlier_event 4%nat | earlier_event 5%nat ] ].

Lemma exchange_order (pre : list Event) (tid : Z) (u : Message) (url : string)
      (h : list Message) (ai : json) (display : json -> Event) :
  role u = user ->
  (pre = [EvTyping tid] \/ pre = [EvDefer; EvTyping tid]) ->
  (display = EvReply \/ display = EvEditOriginal) ->
  forall l,
    l = pre ++ [EvPush tid u; EvPost url h] \/
    l = pre ++ [EvPush tid u; EvPost url h; EvPush tid (mkMessage assistant ai)] \/
    l = pre ++ [EvPush tid u; EvPost url h; EvPush tid (mkMessage assistant ai);
                display ai] ->
    happens_before is_user_push is_inference_call l /\
    happens_before is_inference_call is_assistant_push l.
Proof.
  intros Hu Hpre Hdisplay l Hl.
  destruct u as [r c]. cbn in Hu. subst r.
  destruct Hpre as [-> | ->]; destruct Hdisplay as [-> | ->];
    destruct Hl as [-> | [-> | ->]]; cbn [app];
    split; order_by_cases.
Qed.

(** C9: in the log of one message handler, and in the log of one
    regeneration, the write of the user entry comes before the request to
    the inference service, and the request comes before the write of the
    assistant entry: a request is never made without the user entry written
    first, and an assistant entry is never written without the request made
    first. *)
Theorem user_push_then_call_then_assistant_push
        (self : Bot) (net : Inference) (channel : Z) (message : PlatformMessage)
        (docs : Collection) :
  let by_message := log (snd (on_message self net message (mkWorld docs []))) in
  let by_regeneration :=
    log (snd (regenerate_response self net channel message (mkWorld docs []))) in
  (happens_before is_user_push is_inference_call by_message /\
   happens_before is_inference_call is_assistant_push by_message) /\
  (happens_before is_user_push is_inference_call by_regeneration /\
   happens_before is_inference_call is_assistant_push by_regeneration).
Proof.
  cbv zeta. split.
  - destruct (on_message_log self net message docs)
      as [-> | [-> | (u & url & h & Hu & Hl)]].
    + split; order_by_cases.
    + split; order_by_cases.
    + destruct Hl as [Hl | [ai Hl]].
      * apply (exchange_order [EvTyping (channel_id message)] (channel_id message)
                              u url h JNull EvReply); auto.
      * apply (exchange_order [EvTyping (channel_id message)] (channel_id message)
                              u url h ai EvReply); auto.
  - destruct (regenerate_log self net channel message docs)
      as [[shown_text ->] | [-> | (u & url & h & Hu & Hl)]].
    + split; order_by_cases.
    + split; order_by_cases.
    + destruct Hl as [Hl | [ai Hl]].
      * apply (exchange_order [EvDefer; EvTyping channel] channel
                              u url h JNull EvEditOriginal); auto.
      * apply (exchange_order [EvDefer; EvTyping channel] channel
                              u url h ai EvEditOriginal); auto.
Qed.

(** ** The mention token *)

(** C10: the text is any number of segments with the bot's mention between
    them, and no further occurrence of the mention begins inside a segment.
    Then the user entry that [fetch_response] writes to the session, and that
    ends the history it sends to the inference service, carries the segments
    alone: every mention is gone, wherever it stood. *)
Theorem every_mention_removed
        (self : Bot) (net : Inference) (model_name : string) (segs : list string)
        (tid : Z) (w : World) (d : Document) (cs : ClientSession) :
  user_mention self <> "" ->
  Forall (fun seg => starts_within (user_mention self) seg = false) segs ->
  find_one tid (conversations w) = Some d ->
  session self = Some cs ->
  let raw := String.concat (user_mention self) segs in
  let stripped := mkMessage user (JStr (String.concat "" segs)) in
  let w' := snd (fetch_response self net model_name raw tid w) in
  exists later_events later_entries,
    log w' = log w ++ EvPush tid stripped
                   :: EvPost (run_url self model_name) (messages d ++ [stripped])
                   :: later_events /\
    history tid w' = Some (messages d ++ stripped :: later_entries).
Proof.
  intros Hne Hsegs Hd Hs. cbv zeta.
  rewrite (fetch_response_bound self net model_name _ tid w d cs Hd Hs).
  rewrite (replace_segments (user_mention self) Hne segs Hsegs).
  destruct (reply_of _) as [ai|e]; cbn [snd log conversations]; unfold history;
    cbn [conversations].
  - exists [EvPush tid (mkMessage assistant ai)], [mkMessage assistant ai].
    split; [reflexivity|].
    now rewrite (history_after_exchange tid _ _ _ d Hd).
  - exists [], []. split; [reflexivity|].
    now rewrite (history_after_push tid _ _ d Hd).
Qed.

Lemma every_mention_removed_witness :
  let self := mkBot "<@1>" "acc" (Some (mkClientSession "Bearer t")) in
  let d := mkDocument 7 [system_message] "@cf/meta/llama-2-7b-chat-fp16" in
  let w := mkWorld [d] [] in
  let stripped := mkMessage user (JStr "hey  you, what's up?") in
  let w' := snd (fetch_response self (mock "sup") (model d)
                                "hey <@1> you<@1><@1>, what's up?<@1>" 7 w) in
  exists later_events later_entries,
    log w' = EvPush 7 stripped
             :: EvPost (run_url self (model d)) [system_message; stripped]
             :: later_events /\
    history 7 w' = Some (system_message :: stripped :: later_entries).
Proof.
  intros self d w.
  refine (every_mention_removed self (mock "sup") (model d)
            ["hey "; " you"; ""; ", what's up?"; ""] 7 w d
            (mkClientSession "Bearer t") _ _ eq_refl eq_refl).
  - discriminate.
  - repeat constructor.
Defined.


(** * Further properties of the handlers *)

(** ** Creation and lookup *)

(** X1: when the select interaction carries no message, the callback only
    defers and sends the apology: no thread is created and nothing is
    stored. *)
Theorem callback_without_message
        (model_name who : string) (thread : Z) (w : World) :
  callback model_name (mkSelectInteraction None who) thread w
  = (Ret tt,
     mkWorld (conversations w)
             (log w ++ [EvDefer;
                        EvFollowup "Something went wrong, please try again later!"])).
Proof.
  unfold callback, bind, emit. cbn [interaction_message conversations log].
  now rewrite <- app_assoc.
Qed.

(** X2: a session created in a thread that had none is what [find_one]
    then returns for that thread, with the chosen model and the system
    entry alone; the lookup of every other thread is as before. *)
Theorem create_then_lookup
        (model_name who : string) (origin thread : Z) (w : World) :
  find_one thread (conversations w) = None ->
  let w' := snd (callback model_name (mkSelectInteraction (Some origin) who) thread w) in
  find_one thread (conversations w')
  = Some (mkDocument thread [system_message] model_name) /\
  forall other, other <> thread ->
                find_one other (conversations w') = find_one other (conversations w).
Proof.
  intros Hfresh. cbv zeta. rewrite callback_creates. cbn [snd conversations].
  split.
  - now apply (find_one_insert_fresh (mkDocument thread [system_message] model_name)).
  - intros other Hne. clear Hfresh. unfold find_one.
    induction (conversations w) as [|d ds IH]; simpl.
    + unfold matches. cbn [thread_id].
      destruct (Z.eqb_spec thread other); [congruence | reflexivity].
    + destruct (matches other d); [reflexivity | exact IH].
Qed.

Lemma create_then_lookup_witness :
  let w := mkWorld [mkDocument 3 [system_message] "@cf/meta/llama-2-7b-chat-int8"] [] in
  let w' := snd (callback "@cf/mistral/mistral-7b-instruct-v0.1"
                          (mkSelectInteraction (Some 5) "<@9>") 7 w) in
  find_one 7 (conversations w')
  = Some (mkDocument 7 [system_message] "@cf/mistral/mistral-7b-instruct-v0.1") /\
  forall other, other <> 7 ->
                find_one other (conversations w') = find_one other (conversations w).
Proof.
  intros w.
  exact (create_then_lookup "@cf/mistral/mistral-7b-instruct-v0.1" "<@9>" 5 7 w eq_refl).
Defined.

(** ** Messages that start no exchange *)

(** X3: a message written by a bot, or that does not mention the bot, or
    without text, or in a thread without a session, only goes to the
    command processing: nothing is stored, the inference service is not
    called and nothing is replied. *)
Theorem on_message_delegates
        (self : Bot) (net : Inference) (message : PlatformMessage) (w : World) :
  author_bot message = true \/ mentions_bot message = false \/ text message = ""
  \/ find_one (channel_id message) (conversations w) = None ->
  on_message self net message w
  = (Ret tt, mkWorld (conversations w) (log w ++ [EvProcessCommands])).
Proof.
  intros [H | [H | [H | H]]].
  - apply on_message_ignored. now rewrite H.
  - apply on_message_ignored. rewrite H. simpl. now rewrite orb_true_r.
  - apply on_message_ignored. rewrite H. simpl. now rewrite !orb_true_r.
  - now apply on_message_unbound.
Qed.

Lemma on_message_delegates_witness :
  let self := mkBot "<@1>" "acc" (Some (mkClientSession "Bearer t")) in
  let w := mkWorld [mkDocument 7 [system_message] "@cf/meta/llama-2-7b-chat-int8"] [] in
  on_message self (mock "sup") (mkPlatformMessage false false "hello" 7) w
  = (Ret tt, mkWorld (conversations w) [EvProcessCommands]) /\
  on_message self (mock "sup") (mkPlatformMessage false true "<@1> hello" 8) w
  = (Ret tt, mkWorld (conversations w) [EvProcessCommands]).
Proof.
  intros self w. split.
  - apply (on_message_delegates self (mock "sup")
             (mkPlatformMessage false false "hello" 7) w).
    right; left; reflexivity.
  - apply (on_message_delegates self (mock "sup")
             (mkPlatformMessage false true "<@1> hello" 8) w).
    right; right; right; reflexivity.
Defined.

(** X4: as long as the bot has no client session ([setup_hook] has not
    run), no handler writes to the collection, calls the inference service
    or shows a generated text: a message for the bot gets no reply, and a
    regeneration leaves the interaction deferred. *)
Theorem no_client_session_no_exchange
        (self : Bot) (net : Inference) (channel : Z) (message : PlatformMessage)
        (w : World) :
  session self = None ->
  (exists events,
      on_message self net message w
      = (Ret tt, mkWorld (conversations w) (log w ++ events)) /\
      forallb is_quiet events = true) /\
  (exists events,
      regenerate_response self net channel message w
      = (Ret tt, mkWorld (conversations w) (log w ++ events)) /\
      (forallb is_quiet events = true \/
       exists refusal, events = [EvDefer; EvEditOriginal (JStr refusal)] /\
                       (refusal = not_generated \/ refusal = not_my_reply))).
Proof.
  intros Hs. split.
  - destruct (author_bot message || negb (mentions_bot message)
              || is_empty (text message)) eqn:Hg.
    { exists [EvProcessCommands]. now rewrite on_message_ignored. }
    destruct (find_one (channel_id message) (conversations w)) as [d|] eqn:Hd.
    + exists [EvTyping (channel_id message)].
      now rewrite (on_message_no_session self net message w d).
    + exists [EvProcessCommands]. now rewrite on_message_unbound.
  - destruct (find_one channel (conversations w)) as [d|] eqn:Hd.
    2:{ exists [EvDefer; EvEditOriginal (JStr not_generated)].
        rewrite regenerate_unbound by exact Hd. split; [reflexivity|].
        right. exists not_generated. auto. }
    destruct (author_bot message || is_empty (text message)) eqn:Hg.
    + exists [EvDefer; EvEditOriginal (JStr not_my_reply)].
      rewrite (regenerate_invalid self net channel message w d Hd Hg).
      split; [reflexivity|]. right. exists not_my_reply. auto.
    + exists [EvDefer; EvTyping channel].
      rewrite (regenerate_no_session self net channel message w d Hd Hg Hs).
      split; [reflexivity | left; reflexivity].
Qed.

Lemma no_client_session_no_exchange_witness :
  let self := mkBot "<@1>" "acc" None in
  let w := mkWorld [mkDocument 7 [system_message] "@cf/meta/llama-2-7b-chat-int8"] [] in
  let message := mkPlatformMessage false true "<@1> hello" 7 in
  (exists events,
      on_message self (mock "sup") message w
      = (Ret tt, mkWorld (conversations w) (log w ++ events)) /\
      forallb is_quiet events = true) /\
  (exists events,
      regenerate_response self (mock "sup") 7 message w
      = (Ret tt, mkWorld (conversations w) (log w ++ events)) /\
      (forallb is_quiet events = true \/
       exists refusal, events = [EvDefer; EvEditOriginal (JStr refusal)] /\
                       (refusal = not_generated \/ refusal = not_my_reply))).
Proof.
  intros self w message.
  exact (no_client_session_no_exchange self (mock "sup") 7 message w eq_refl).
Defined.

(** ** What a handler may change *)

Lemma pushes_other_thread (tid other : Z) (ms : list Message) :
  other <> tid ->
  forall docs, find_one other (pushes tid ms docs) = find_one other docs.
Proof.
  intros Hne. unfold pushes.
  induction ms as [|m ms IH]; intros docs; simpl; [reflexivity|].
  now rewrite IH, find_one_update_other.
Qed.

Lemma extended_twice (d : Document) (more more' : list Message) :
  extended (extended d more) more' = extended d (more ++ more').
Proof. unfold extended. simpl. now rewrite app_assoc. Qed.

Lemma pushes_extend (tid t : Z) (ms : list Message) :
  forall docs d,
    find_one tid docs = Some d ->
    exists more, find_one tid (pushes t ms docs) = Some (extended d more).
Proof.
  unfold pushes. induction ms as [|m ms IH]; intros docs d Hd; simpl.
  - exists []. unfold extended. rewrite app_nil_r. now destruct d.
  - destruct (Z.eq_dec tid t) as [<- | Hne].
    + destruct (IH _ _ (find_one_update_same tid m docs d Hd)) as [more Hmore].
      exists (m :: more). rewrite Hmore.
      change (push m d) with (extended d [m]). now rewrite extended_twice.
    + destruct (IH (update_one_push t m docs) d) as [more Hmore].
      * now rewrite find_one_update_other.
      * now exists more.
Qed.

Lemma update_one_push_first_match (tid : Z) (m : Message) (d : Document)
      (before behind : Collection) :
  find_one tid before = None ->
  thread_id d = tid ->
  update_one_push tid m (before ++ d :: behind) = before ++ push m d :: behind.
Proof.
  intros Hnone Hd. unfold find_one in Hnone.
  induction before as [|b before IH]; simpl in *.
  - unfold matches. now rewrite Hd, Z.eqb_refl.
  - destruct (matches tid b); [discriminate|]. now rewrite IH.
Qed.

Lemma pushes_first_match (tid : Z) (ms : list Message) (before behind : Collection) :
  find_one tid before = None ->
  forall d, thread_id d = tid ->
            pushes tid ms (before ++ d :: behind) = before ++ extended d ms :: behind.
Proof.
  intros Hnone. unfold pushes.
  induction ms as [|m ms IH]; intros d Hd; simpl.
  - unfold extended. rewrite app_nil_r. now destruct d.
  - rewrite (update_one_push_first_match tid m d before behind Hnone Hd).
    rewrite IH by exact Hd.
    change (push m d) with (extended d [m]). now rewrite extended_twice.
Qed.

(** X5: a message handler and a regeneration change the session of their
    own thread only: the lookup of every other thread gives what it gave
    before. *)
Theorem other_threads_untouched
        (self : Bot) (net : Inference) (channel other : Z) (message : PlatformMessage)
        (w : World) :
  (other <> channel_id message ->
   find_one other (conversations (snd (on_message self net message w)))
   = find_one other (conversations w)) /\
  (other <> channel ->
   find_one other (conversations (snd (regenerate_response self net channel message w)))
   = find_one other (conversations w)).
Proof.
  split; intros Hne.
  - destruct (on_message_writes self net message w) as [ms ->].
    now apply pushes_other_thread.
  - destruct (regenerate_writes self net channel message w) as [ms ->].
    now apply pushes_other_thread.
Qed.

Lemma other_threads_untouched_witness :
  let self := mkBot "<@1>" "acc" (Some (mkClientSession "Bearer t")) in
  let w := mkWorld [mkDocument 3 [system_message] "@cf/meta/llama-2-7b-chat-int8";
                    mkDocument 7 [system_message] "@cf/meta/llama-2-7b-chat-fp16"] [] in
  let message := mkPlatformMessage false true "<@1> hello" 7 in
  find_one 3 (conversations (snd (on_message self (mock "sup") message w)))
  = find_one 3 (conversations w) /\
  find_one 3 (conversations (snd (regenerate_response self (mock "yo") 7 message w)))
  = find_one 3 (conversations w).
Proof.
  intros self w message.
  destruct (other_threads_untouched self (mock "sup") 7 3 message w) as [A _].
  destruct (other_threads_untouched self (mock "yo") 7 3 message w) as [_ B].
  split; [apply A | apply B]; discriminate.
Defined.

Lemma handle_extends (tid : Z) (i : Invocation) (w : World) (d : Document) :
  find_one tid (conversations w) = Some d ->
  exists more, find_one tid (conversations (snd (handle i w))) = Some (extended d more).
Proof.
  intros Hd.
  destruct i as [model_name interaction thread | self net message
                | self net channel message]; simpl.
  - destruct (callback_collection model_name interaction thread w) as [-> | ->].
    + exists []. rewrite Hd. unfold extended. rewrite app_nil_r. now destruct d.
    + exists [].
      change (conversations w ++ [mkDocument thread [system_message] model_name])
        with (insert_one (mkDocument thread [system_message] model_name)
                         (conversations w)).
      rewrite (find_one_insert_present tid _ d _ Hd).
      unfold extended. rewrite app_nil_r. now destruct d.
  - destruct (on_message_writes self net message w) as [ms ->].
    now apply pushes_extend.
  - destruct (regenerate_writes self net channel message w) as [ms ->].
    now apply pushes_extend.
Qed.

(** X6: a session, once stored, is there for good: whatever events the
    bot handles afterwards (creations, messages, regenerations, in any
    thread, with any inference results), the lookup of its thread gives a
    session with the same [thread_id] and the same [model], whose history is
    the old history with entries added at the end. *)
Theorem session_persists (tid : Z) (events : list Invocation) :
  forall (w : World) (d : Document),
    find_one tid (conversations w) = Some d ->
    exists more,
      find_one tid (conversations (run_all events w)) = Some (extended d more).
Proof.
  unfold run_all.
  induction events as [|i events IH]; intros w d Hd; simpl.
  - exists []. rewrite Hd. unfold extended. rewrite app_nil_r. now destruct d.
  - destruct (handle_extends tid i w d Hd) as [more Hmore].
    destruct (IH _ _ Hmore) as [more' Hmore'].
    exists (more ++ more'). now rewrite Hmore', extended_twice.
Qed.

Lemma session_persists_witness :
  let self := mkBot "<@1>" "acc" (Some (mkClientSession "Bearer t")) in
  let d := mkDocument 7 [system_message] "@cf/meta/llama-2-7b-chat-fp16" in
  let events :=
    [Inbound self (mock "sup") (mkPlatformMessage false true "hello" 7);
     Select "@cf/meta/llama-2-7b-chat-int8" (mkSelectInteraction (Some 5) "<@9>") 7;
     Regenerate self (fun _ _ => ConnectionFailed) 7
                (mkPlatformMessage false false "hello" 7)] in
  exists more,
    find_one 7 (conversations (run_all events (mkWorld [d] []))) = Some (extended d more).
Proof.
  intros self d events.
  exact (session_persists 7 events (mkWorld [d] []) d eq_refl).
Defined.

(** X7: should a thread have several sessions, the handlers write to
    the first one only; the sessions before it and behind it in the
    collection, the later sessions of the same thread among them, stay as
    they are. *)
Theorem only_first_session_written
        (self : Bot) (net : Inference) (channel : Z) (message : PlatformMessage)
        (before behind : Collection) (d : Document) (events : list Event) :
  find_one channel before = None ->
  thread_id d = channel ->
  channel_id message = channel ->
  let w := mkWorld (before ++ d :: behind) events in
  (exists more, conversations (snd (on_message self net message w))
                = before ++ extended d more :: behind) /\
  (exists more, conversations (snd (regenerate_response self net channel message w))
                = before ++ extended d more :: behind).
Proof.
  intros Hnone Hd Hch w. split.
  - destruct (on_message_writes self net message w) as [ms ->].
    exists ms. rewrite Hch. now apply pushes_first_match.
  - destruct (regenerate_writes self net channel message w) as [ms ->].
    exists ms. now apply pushes_first_match.
Qed.

Lemma only_first_session_written_witness :
  let self := mkBot "<@1>" "acc" (Some (mkClientSession "Bearer t")) in
  let d := mkDocument 7 [system_message] "@cf/meta/llama-2-7b-chat-fp16" in
  let d' := mkDocument 7 [system_message] "@cf/meta/llama-2-7b-chat-int8" in
  let message := mkPlatformMessage false true "hello" 7 in
  let w := mkWorld ([] ++ d :: [d']) [] in
  (exists more, conversations (snd (on_message self (mock "sup") message w))
                = [] ++ extended d more :: [d']) /\
  (exists more, conversations (snd (regenerate_response self (mock "sup") 7 message w))
                = [] ++ extended d more :: [d']).
Proof.
  intros self d d' message.
  exact (only_first_session_written self (mock "sup") 7 message [] [d'] d []
                                    eq_refl eq_refl eq_refl).
Defined.

(** X8: a regeneration on a user's message stores what the same message,
    coming in with a mention of the bot, would store, and ends the same way
    (it returns, or raises the same exception); the two differ in what they
    show only. *)
Theorem regeneration_writes_like_message
        (self : Bot) (net : Inference) (message : PlatformMessage) (w : World) :
  author_bot message = false ->
  mentions_bot message = true ->
  let by_regeneration := regenerate_response self net (channel_id message) message w in
  let by_message := on_message self net message w in
  fst by_regeneration = fst by_message /\
  conversations (snd by_regeneration) = conversations (snd by_message).
Proof.
  intros Ha Hm. cbv zeta.
  assert (Hg : author_bot message || negb (mentions_bot message) || is_empty (text message)
               = author_bot message || is_empty (text message))
    by (rewrite Ha, Hm; reflexivity).
  destruct (find_one (channel_id message) (conversations w)) as [d|] eqn:Hd.
  2:{ now rewrite regenerate_unbound, on_message_unbound. }
  destruct (author_bot message || is_empty (text message)) eqn:Hbad.
  { now rewrite (regenerate_invalid self net _ message w d Hd Hbad),
                (on_message_ignored self net message w Hg). }
  destruct (session self) as [cs|] eqn:Hs.
  2:{ now rewrite (regenerate_no_session self net _ message w d Hd Hbad Hs),
                  (on_message_no_session self net message w d Hg Hd Hs). }
  rewrite (regenerate_bound self net _ message w d cs Hd Hbad Hs),
          (on_message_bound self net message w d cs Hg Hd Hs).
  now destruct (reply_of _).
Qed.

Lemma regeneration_writes_like_message_witness :
  let self := mkBot "<@1>" "acc" (Some (mkClientSession "Bearer t")) in
  let w := mkWorld [mkDocument 7 [system_message] "@cf/meta/llama-2-7b-chat-fp16"] [] in
  let message := mkPlatformMessage false true "<@1> hello" 7 in
  fst (regenerate_response self (mock "sup") (channel_id message) message w)
  = fst (on_message self (mock "sup") message w) /\
  conversations (snd (regenerate_response self (mock "sup") (channel_id message) message w))
  = conversations (snd (on_message self (mock "sup") message w)).
Proof.
  intros self w message.
  exact (regeneration_writes_like_message self (mock "sup") message w eq_refl eq_refl).
Defined.

(** ** Exchanges *)

Lemma on_message_turn (self : Bot) (cs : ClientSession) (tid : Z)
      (turn : string * string) (w : World) (d : Document) :
  session self = Some cs ->
  fst turn <> "" ->
  find_one tid (conversations w) = Some d ->
  find_one tid (conversations (snd (handle (turn_event self tid turn) w)))
  = Some (extended d (turn_entries self turn)).
Proof.
  intros Hs Htext Hd. unfold turn_event, handle.
  assert (Hg : author_bot (mkPlatformMessage false true (fst turn) tid)
               || negb (mentions_bot (mkPlatformMessage false true (fst turn) tid))
               || is_empty (text (mkPlatformMessage false true (fst turn) tid)) = false).
  { simpl. destruct (fst turn); [congruence | reflexivity]. }
  rewrite (on_message_bound self _ _ w d cs Hg Hd Hs).
  cbn [text channel_id]. rewrite reply_of_mock. cbn [snd conversations].
  rewrite (find_one_update_same tid _ _ (push (asked_of self (fst turn)) d)).
  - unfold extended, push, turn_entries. simpl. now rewrite <- app_assoc.
  - now apply find_one_update_same.
Qed.

(** X9: [N] messages for the bot, each with text and each answered by the
    inference service, add [2N] entries to the history of the session: for
    each message, in order, the user entry with the text without the mention
    and right behind it the assistant entry with the generated text. *)
Theorem exchanges_alternate
        (self : Bot) (cs : ClientSession) (tid : Z) (turns : list (string * string)) :
  session self = Some cs ->
  Forall (fun turn => fst turn <> "") turns ->
  forall (w : World) (d : Document),
    find_one tid (conversations w) = Some d ->
    let added := flat_map (turn_entries self) turns in
    history tid (run_all (map (turn_event self tid) turns) w)
    = Some (messages d ++ added) /\
    List.length added = (2 * List.length turns)%nat /\
    map role added = flat_map (fun _ => [user; assistant]) turns.
Proof.
  intros Hs Htexts w d Hd. cbv zeta. split; [|split].
  - assert (G : find_one tid (conversations (run_all (map (turn_event self tid) turns) w))
                = Some (extended d (flat_map (turn_entries self) turns))).
    { revert w d Hd. unfold run_all.
      induction Htexts as [|turn turns Hturn Hturns IH]; intros w d Hd;
        cbn [map fold_left flat_map].
      - rewrite Hd. unfold extended. rewrite app_nil_r. now destruct d.
      - rewrite (IH _ _ (on_message_turn self cs tid turn w d Hs Hturn Hd)).
        now rewrite extended_twice. }
    unfold history. now rewrite G.
  - clear. induction turns as [|turn turns IH]; simpl; [reflexivity|]. rewrite IH. lia.
  - clear. induction turns as [|turn turns IH]; simpl; [reflexivity|]. now rewrite IH.
Qed.

Lemma exchanges_alternate_witness :
  let self := mkBot "<@1>" "acc" (Some (mkClientSession "Bearer t")) in
  let d := mkDocument 7 [system_message] "@cf/meta/llama-2-7b-chat-fp16" in
  let turns := [("<@1> hello", "sup"); ("bye <@1>", "later")] in
  let added := flat_map (turn_entries self) turns in
  history 7 (run_all (map (turn_event self 7) turns) (mkWorld [d] []))
  = Some (messages d ++ added) /\
  List.length added = (2 * List.length turns)%nat /\
  map role added = flat_map (fun _ => [user; assistant]) turns.
Proof.
  intros self d turns.
  refine (exchanges_alternate self (mkClientSession "Bearer t") 7 turns eq_refl _
                              (mkWorld [d] []) d eq_refl).
  repeat constructor; discriminate.
Defined.

(** X10: the user entry of a failed exchange stays in the history.  After a
    message whose inference call fails and a second message that is
    answered, the history has the two user entries next to each other and
    one assistant entry behind them. *)
Theorem failed_exchange_leaves_user_entry
        (self : Bot) (cs : ClientSession) (net : Inference) (tid : Z)
        (first second generated : string) (pinged : bool) (w : World) (d : Document) :
  session self = Some cs ->
  first <> "" -> second <> "" ->
  find_one tid (conversations w) = Some d ->
  inference_fails (net (run_url self (model d)) (messages d ++ [asked_of self first])) ->
  let w1 := snd (on_message self net (mkPlatformMessage false true first tid) w) in
  let w2 := snd (on_message self (mock generated)
                            (mkPlatformMessage false true second tid) w1) in
  history tid w2
  = Some (messages d ++ [asked_of self first; asked_of self second;
                         mkMessage assistant (JStr generated)]).
Proof.
  intros Hs H1 H2 Hd [e He]. cbv zeta.
  assert (G : forall t, t <> "" ->
                        author_bot (mkPlatformMessage false true t tid)
                        || negb (mentions_bot (mkPlatformMessage false true t tid))
                        || is_empty (text (mkPlatformMessage false true t tid)) = false).
  { intros t Ht. simpl. destruct t; [congruence | reflexivity]. }
  rewrite (on_message_bound self net _ w d cs (G first H1) Hd Hs).
  cbn [text channel_id]. rewrite He. cbn [snd].
  set (w1 := mkWorld _ _).
  assert (Hd1 : find_one tid (conversations w1) = Some (push (asked_of self first) d))
    by (apply find_one_update_same; exact Hd).
  rewrite (on_message_bound self (mock generated) _ w1 _ cs (G second H2) Hd1 Hs).
  cbn [text channel_id]. rewrite reply_of_mock. cbn [snd].
  unfold history. cbn [conversations].
  rewrite (history_after_exchange tid _ _ _ _ Hd1). simpl.
  now rewrite <- app_assoc.
Qed.

Lemma failed_exchange_leaves_user_entry_witness :
  let self := mkBot "<@1>" "acc" (Some (mkClientSession "Bearer t")) in
  let d := mkDocument 7 [system_message] "@cf/meta/llama-2-7b-chat-fp16" in
  let net : Inference := fun _ _ => NotJson in
  let w1 := snd (on_message self net (mkPlatformMessage false true "one" 7)
                            (mkWorld [d] [])) in
  let w2 := snd (on_message self (mock "sup") (mkPlatformMessage false true "two" 7) w1) in
  history 7 w2
  = Some (messages d ++ [asked_of self "one"; asked_of self "two";
                         mkMessage assistant (JStr "sup")]).
Proof.
  intros self d net.
  refine (failed_exchange_leaves_user_entry self (mkClientSession "Bearer t") net 7
            "one" "two" "sup" true (mkWorld [d] []) d eq_refl _ _ eq_refl _).
  - discriminate.
  - discriminate.
  - exists ContentTypeError. reflexivity.
Defined.

(** X11: line 133 reads ["messages"] from the response body, not from the
    session.  When the body carries the generated text but no ["messages"]
    member, [fetch_response] raises [KeyError] there: the text is neither
    stored nor shown, and the history keeps the user entry alone. *)
Theorem reply_lost_without_messages_member
        (self : Bot) (cs : ClientSession) (net : Inference) (message : PlatformMessage)
        (w : World) (d : Document) (members : list (string * json))
        (result generated : json) :
  author_bot message || negb (mentions_bot message) || is_empty (text message) = false ->
  find_one (channel_id message) (conversations w) = Some d ->
  session self = Some cs ->
  let tid := channel_id message in
  let asked := asked_of self (text message) in
  let url := run_url self (model d) in
  net url (messages d ++ [asked]) = Body (JObj members) ->
  obj_get "result" members = Some result ->
  getitem result "response" = Ret generated ->
  obj_get "messages" members = None ->
  on_message self net message w
  = (Raise (KeyError "messages"),
     mkWorld (update_one_push tid asked (conversations w))
             (log w ++ [EvTyping tid; EvPush tid asked; EvPost url (messages d ++ [asked])]))
  /\ history tid (snd (on_message self net message w)) = Some (messages d ++ [asked]).
Proof.
  intros Hg Hd Hs tid asked url Hbody Hresult Hresponse Hmessages.
  assert (E : reply_of (net url (messages d ++ [asked])) = Raise (KeyError "messages")).
  { rewrite Hbody. unfold reply_of, read_reply, getitem at 1.
    rewrite Hresult, Hresponse. unfold getitem. now rewrite Hmessages. }
  rewrite (on_message_bound self net message w d cs Hg Hd Hs).
  fold tid asked url. rewrite E.
  split; [reflexivity|].
  unfold history. cbn [snd conversations]. now apply history_after_push.
Qed.

Lemma reply_lost_without_messages_member_witness :
  let self := mkBot "<@1>" "acc" (Some (mkClientSession "Bearer t")) in
  let d := mkDocument 7 [system_message] "@cf/meta/llama-2-7b-chat-fp16" in
  let net : Inference :=
    fun _ _ => Body (JObj [("result", JObj [("response", JStr "sup")])]) in
  let message := mkPlatformMessage false true "hello" 7 in
  let asked := asked_of self "hello" in
  let url := run_url self (model d) in
  on_message self net message (mkWorld [d] [])
  = (Raise (KeyError "messages"),
     mkWorld (update_one_push 7 asked [d])
             ([] ++ [EvTyping 7; EvPush 7 asked; EvPost url (messages d ++ [asked])]))
  /\ history 7 (snd (on_message self net message (mkWorld [d] [])))
     = Some (messages d ++ [asked]).
Proof.
  intros self d net message.
  exact (reply_lost_without_messages_member self (mkClientSession "Bearer t") net message
           (mkWorld [d] []) d [("result", JObj [("response", JStr "sup")])]
           (JObj [("response", JStr "sup")]) (JStr "sup")
           eq_refl eq_refl eq_refl eq_refl eq_refl eq_refl eq_refl).
Defined.

(** X12: a body whose generated text is [null] is not an error for the
    code: an assistant entry with [null] as content is stored, and since
    [ai_message] is [None] nothing is replied. *)
Theorem null_reply_is_stored
        (self : Bot) (cs : ClientSession) (net : Inference) (message : PlatformMessage)
        (w : World) (d : Document) :
  author_bot message || negb (mentions_bot message) || is_empty (text message) = false ->
  find_one (channel_id message) (conversations w) = Some d ->
  session self = Some cs ->
  let tid := channel_id message in
  let asked := asked_of self (text message) in
  let url := run_url self (model d) in
  reply_of (net url (messages d ++ [asked])) = Ret JNull ->
  let (r, w') := on_message self net message w in
  r = Ret tt /\
  history tid w' = Some (messages d ++ [asked; mkMessage assistant JNull]) /\
  log w' = log w ++ [EvTyping tid; EvPush tid asked; EvPost url (messages d ++ [asked]);
                     EvPush tid (mkMessage assistant JNull)].
Proof.
  intros Hg Hd Hs tid asked url Hnull.
  rewrite (on_message_bound self net message w d cs Hg Hd Hs).
  fold tid asked url. rewrite Hnull. cbn [shown]. rewrite app_nil_r.
  repeat split.
  unfold history. cbn [conversations]. now apply history_after_exchange.
Qed.

Lemma null_reply_is_stored_witness :
  let self := mkBot "<@1>" "acc" (Some (mkClientSession "Bearer t")) in
  let d := mkDocument 7 [system_message] "@cf/meta/llama-2-7b-chat-fp16" in
  let net : Inference :=
    fun _ _ => Body (JObj [("result", JObj [("response", JNull)]);
                           ("success", JBool true); ("errors", JArr []);
                           ("messages", JArr [])]) in
  let message := mkPlatformMessage false true "hello" 7 in
  let asked := asked_of self "hello" in
  let url := run_url self (model d) in
  let (r, w') := on_message self net message (mkWorld [d] []) in
  r = Ret tt /\
  history 7 w' = Some (messages d ++ [asked; mkMessage assistant JNull]) /\
  log w' = [] ++ [EvTyping 7; EvPush 7 asked; EvPost url (messages d ++ [asked]);
                  EvPush 7 (mkMessage assistant JNull)].
Proof.
  intros self d net message.
  exact (null_reply_is_stored self (mkClientSession "Bearer t") net message
           (mkWorld [d] []) d eq_refl eq_refl eq_refl eq_refl).
Defined.

(** ** The request to the inference service *)

Lemma run_all_extends (tid : Z) (events : list Invocation) :
  forall (w : World) (d : Document),
    find_one tid (conversations w) = Some d ->
    exists more,
      find_one tid (conversations (run_all events w)) = Some (extended d more).
Proof.
  unfold run_all.
  induction events as [|i events IH]; intros w d Hd; cbn [fold_left].
  - exists []. rewrite Hd. unfold extended. rewrite app_nil_r. now destruct d.
  - destruct (handle_extends tid i w d Hd) as [more Hmore].
    destruct (IH _ _ Hmore) as [more' Hmore'].
    exists (more ++ more'). now rewrite Hmore', extended_twice.
Qed.

(** X13: the model chosen when the session was created is the model every
    later message of the thread is sent to, and the request carries the
    whole stored history, from the system entry on, with the new user entry
    at its end; nothing is cut off, whatever happened in between. *)
Theorem request_goes_to_chosen_model_with_whole_history
        (self : Bot) (cs : ClientSession) (net : Inference)
        (model_name who : string) (origin thread : Z) (w0 : World)
        (events : list Invocation) (message : PlatformMessage) :
  find_one thread (conversations w0) = None ->
  session self = Some cs ->
  author_bot message || negb (mentions_bot message) || is_empty (text message) = false ->
  channel_id message = thread ->
  let w1 := snd (callback model_name (mkSelectInteraction (Some origin) who) thread w0) in
  let w2 := run_all events w1 in
  let asked := asked_of self (text message) in
  exists stored later,
    history thread w2 = Some (system_message :: stored) /\
    log (snd (on_message self net message w2))
    = log w2 ++ EvTyping thread
             :: EvPush thread asked
             :: EvPost (run_url self model_name) (system_message :: stored ++ [asked])
             :: later.
Proof.
  intros Hfresh Hs Hg Hch. cbv zeta.
  rewrite callback_creates. cbn [snd].
  set (d := mkDocument thread [system_message] model_name).
  set (w1 := mkWorld _ _).
  assert (Hd : find_one thread (conversations w1) = Some d)
    by (apply (find_one_insert_fresh d); exact Hfresh).
  destruct (run_all_extends thread events w1 d Hd) as [stored Hstored].
  exists stored.
  rewrite <- Hch in Hstored.
  rewrite (on_message_bound self net message _ _ cs Hg Hstored Hs).
  rewrite Hch in *. cbn [extended model messages d app].
  destruct (reply_of _) as [ai|e]; cbn [snd log].
  - eexists. split; [unfold history; now rewrite Hstored|]. reflexivity.
  - eexists. split; [unfold history; now rewrite Hstored|]. reflexivity.
Qed.

Lemma request_goes_to_chosen_model_with_whole_history_witness :
  let self := mkBot "<@1>" "acc" (Some (mkClientSession "Bearer t")) in
  let model_name := "@cf/mistral/mistral-7b-instruct-v0.1" in
  let events := [Inbound self (mock "sup") (mkPlatformMessage false true "hello" 7)] in
  let message := mkPlatformMessage false true "<@1> again" 7 in
  let w1 := snd (callback model_name (mkSelectInteraction (Some 5) "<@9>") 7 initial) in
  let w2 := run_all events w1 in
  let asked := asked_of self (text message) in
  exists stored later,
    history 7 w2 = Some (system_message :: stored) /\
    log (snd (on_message self (mock "yo") message w2))
    = log w2 ++ EvTyping 7
             :: EvPush 7 asked
             :: EvPost (run_url self model_name) (system_message :: stored ++ [asked])
             :: later.
Proof.
  intros self model_name events message.
  exact (request_goes_to_chosen_model_with_whole_history
           self (mkClientSession "Bearer t") (mock "yo") model_name "<@9>" 5 7 initial
           events message eq_refl eq_refl eq_refl eq_refl).
Defined.

(** ** More about [str.replace] *)

Lemma prefix_length (t : string) :
  forall s, String.prefix t s = true -> (String.length t <= String.length s)%nat.
Proof.
  induction t as [|x t IH]; intros s H; simpl; [lia|].
  destruct s as [|y s]; [discriminate|].
  simpl in *. destruct (ascii_dec x y); [|discriminate].
  apply IH in H. lia.
Qed.

Lemma replace_go_length (x : ascii) (t : string) :
  forall s skip,
    (skip <= String.length s)%nat ->
    exists k,
      String.length s
      = (String.length (replace_go (String x t) "" skip s) + skip
         + k * String.length (String x t))%nat.
Proof.
  induction s as [|c s IH]; intros skip Hskip.
  - exists 0%nat. simpl in *. lia.
  - destruct skip as [|skip].
    + cbn [replace_go].
      destruct (String.prefix (String x t) (String c s)) eqn:P.
      * apply prefix_length in P. simpl in P.
        destruct (IH (String.length t)) as [k Hk]; [lia|].
        exists (S k). simpl. simpl in Hk. lia.
      * destruct (IH 0%nat) as [k Hk]; [lia|].
        exists k. simpl. simpl in Hk. lia.
    + cbn [replace_go]. simpl in Hskip.
      destruct (IH skip) as [k Hk]; [lia|].
      exists k. simpl. simpl in Hk. lia.
Qed.

(** X14: removing the mention never adds a character: the text that
    [fetch_response] stores is shorter than the text it was given by a
    whole number of mentions. *)
Theorem replace_removes_whole_tokens (token s : string) :
  token <> "" ->
  exists k,
    String.length s
    = (String.length (replace token "" s) + k * String.length token)%nat.
Proof.
  intros Hne. destruct token as [|x t]; [congruence|].
  destruct (replace_go_length x t s 0%nat) as [k Hk]; [lia|].
  exists k. unfold replace. lia.
Qed.

Lemma replace_removes_whole_tokens_witness :
  exists k,
    String.length "hey <@1> you<@1><@1>"
    = (String.length (replace "<@1>" "" "hey <@1> you<@1><@1>")
       + k * String.length "<@1>")%nat.
Proof.
  apply (replace_removes_whole_tokens "<@1>" "hey <@1> you<@1><@1>"). discriminate.
Defined.

(** ** The select menu *)

Section Split.
Local Open Scope string_scope.
Variable sep : ascii.

Lemma split_on_not_nil (s : string) : split_on sep s <> [].
Proof.
  destruct s as [|c s]; simpl; [discriminate|].
  destruct (Ascii.eqb c sep); [discriminate|].
  destruct (split_on sep s); discriminate.
Qed.

Lemma split_on_join (s : string) :
  String.concat (String sep "") (split_on sep s) = s.
Proof.
  induction s as [|c s IH]; [reflexivity|].
  cbn [split_on].
  destruct (Ascii.eqb_spec c sep) as [-> | Hne].
  - destruct (split_on sep s) as [|piece pieces] eqn:E.
    + now destruct (split_on_not_nil s).
    + change (String.concat (String sep "") ("" :: piece :: pieces))
        with (String sep (String.concat (String sep "") (piece :: pieces))).
      now rewrite IH.
  - destruct (split_on sep s) as [|piece pieces] eqn:E.
    + now destruct (split_on_not_nil s).
    + rewrite <- IH. now destruct pieces.
Qed.

Lemma split_on_pieces (s : string) :
  Forall (fun piece => ~ has_char sep piece) (split_on sep s).
Proof.
  induction s as [|c s IH]; cbn [split_on].
  - constructor; [|constructor]. intros [].
  - destruct (Ascii.eqb_spec c sep) as [-> | Hne].
    + constructor; [intros [] | exact IH].
    + destruct (split_on sep s) as [|piece pieces].
      * constructor; [|constructor]. intros [H | []]. congruence.
      * inversion IH as [|? ? Hpiece Hpieces]; subst.
        constructor; [|exact Hpieces].
        intros [H | H]; [congruence | now apply Hpiece].
Qed.

Lemma concat_front_last (pieces : list string) :
  pieces <> [] ->
  exists front,
    String.concat (String sep "") pieces = front ++ last pieces "" /\
    (front = "" \/ exists before, front = before ++ String sep "").
Proof.
  induction pieces as [|x pieces IH]; [congruence|]. intros _.
  destruct pieces as [|y pieces].
  - exists "". split; [reflexivity | now left].
  - destruct IH as (front & Hfront & Hends); [discriminate|].
    change (String.concat (String sep "") (x :: y :: pieces))
      with (x ++ String sep "" ++ String.concat (String sep "") (y :: pieces)).
    change (last (x :: y :: pieces) "") with (last (y :: pieces) "").
    rewrite Hfront.
    exists (x ++ String sep "" ++ front). split.
    + now rewrite !append_assoc.
    + right. destruct Hends as [-> | [before ->]].
      * exists x. now rewrite append_empty_r.
      * exists (x ++ String sep "" ++ before). now rewrite !append_assoc.
Qed.
End Split.

(** X15: [split] loses nothing and leaves no separator behind: joining
    the pieces with the separator gives the string back, no piece holds the
    separator, and there is always at least one piece. *)
Theorem split_then_join (sep : ascii) (s : string) :
  String.concat (String sep "") (split_on sep s) = s /\
  Forall (fun piece => ~ has_char sep piece) (split_on sep s) /\
  split_on sep s <> [].
Proof.
  split; [apply split_on_join | split; [apply split_on_pieces | apply split_on_not_nil]].
Qed.

(** X16: the label of an option is the end of the model name behind its
    last "/": the name is the label itself, or something that ends in "/"
    followed by the label, and the label holds no "/". *)
Theorem label_is_last_component (model_name : string) :
  exists front,
    model_name = (front ++ label_of model_name)%string /\
    (front = "" \/ exists before, front = (before ++ "/")%string) /\
    ~ has_char "/"%char (label_of model_name).
Proof.
  unfold label_of.
  destruct (concat_front_last "/"%char (split_on "/"%char model_name)
                              (split_on_not_nil _ _)) as (front & Hfront & Hends).
  rewrite split_on_join in Hfront.
  exists front. split; [exact Hfront | split; [exact Hends|]].
  pose proof (split_on_pieces "/"%char model_name) as Hpieces.
  pose proof (split_on_not_nil "/"%char model_name) as Hne.
  rewrite Forall_forall in Hpieces. apply Hpieces.
  destruct (split_on "/"%char model_name) as [|p ps]; [congruence|].
  clear. revert p. induction ps as [|q ps IH]; intros p; [now left|].
  right. apply IH.
Qed.

(** X17: the menu has one option for each model of the list, in order,
    with the model name as its value; for the list of the source these
    values are the four models [fetch_response] is typed for, and neither
    two values nor two labels are the same. *)
Theorem options_match_fetch_response_models :
  (forall models,
      map option_value (options_of models) = map name models /\
      map option_description (options_of models) = map description models) /\
  map option_value options = fetch_response_models /\
  NoDup (map option_value options) /\
  NoDup (map option_label options).
Proof.
  split; [|split; [reflexivity | split]].
  - intros models. unfold options_of. rewrite !map_map. now split.
  - repeat constructor; simpl; intuition discriminate.
  - repeat constructor; simpl; intuition discriminate.
Qed.

(** ** The image command *)

(** X18: [generate_image] does not use the account of the configuration,
    nor anything else of the bot but its client session: two bots that have
    one get the same outcome for the same prompt.  What the endpoint
    answers, whatever it is, is attached unread as "image.png"; and a bot
    without a client session raises right after deferring. *)
Theorem generate_image_outcomes
        (self : Bot) (service : ImageService) (prompt : string) :
  (forall other, session self <> None -> session other <> None ->
                 generate_image self service prompt = generate_image other service prompt) /\
  (forall raw_image_data,
      session self <> None ->
      service image_url prompt = Some raw_image_data ->
      generate_image self service prompt
      = (Ret tt, [ImDefer; ImPost image_url prompt;
                  ImEdit "Here is your image!" "image.png" raw_image_data])) /\
  (session self = None ->
   generate_image self service prompt = (Raise AttributeError, [ImDefer])).
Proof.
  unfold generate_image. repeat split.
  - intros other Hs Ho.
    destruct (session self); [|congruence]. destruct (session other); congruence.
  - intros raw Hs Hraw. destruct (session self); [|congruence]. now rewrite Hraw.
  - now intros ->.
Qed.

Lemma generate_image_outcomes_witness :
  let self := mkBot "<@1>" "acc" (Some (mkClientSession "Bearer t")) in
  let other := mkBot "<@2>" "another" (Some (mkClientSession "Bearer u")) in
  let service : ImageService := fun _ _ => Some [Byte.x89; Byte.x50] in
  generate_image self service "a cat" = generate_image other service "a cat" /\
  generate_image self service "a cat"
  = (Ret tt, [ImDefer; ImPost image_url "a cat";
              ImEdit "Here is your image!" "image.png" [Byte.x89; Byte.x50]]) /\
  generate_image (mkBot "<@1>" "acc" None) service "a cat"
  = (Raise AttributeError, [ImDefer]).
Proof.
  intros self other service.
  destruct (generate_image_outcomes self service "a cat") as (A & B & _).
  destruct (generate_image_outcomes (mkBot "<@1>" "acc" None) service "a cat")
    as (_ & _ & C).
  split; [|split].
  - apply (A other); discriminate.
  - apply (B [Byte.x89; Byte.x50]); [discriminate | reflexivity].
  - apply C. reflexivity.
Defined.

(** ** What is shown is what is stored *)

(** X19: whenever the inference service gives a reply the code can read,
    the assistant entry put at the end of the history carries exactly the
    value that is shown: replied in the thread by the message handler, put
    into the original response by a regeneration. *)
Theorem shown_reply_is_stored_reply
        (self : Bot) (cs : ClientSession) (net : Inference) (message : PlatformMessage)
        (w : World) (d : Document) (generated : json) :
  author_bot message = false ->
  mentions_bot message = true ->
  text message <> "" ->
  find_one (channel_id message) (conversations w) = Some d ->
  session self = Some cs ->
  generated <> JNull ->
  let tid := channel_id message in
  let asked := asked_of self (text message) in
  reply_of (net (run_url self (model d)) (messages d ++ [asked])) = Ret generated ->
  (exists before,
      log (snd (on_message self net message w)) = before ++ [EvReply generated] /\
      history tid (snd (on_message self net message w))
      = Some (messages d ++ [asked; mkMessage assistant generated])) /\
  (exists before,
      log (snd (regenerate_response self net tid message w))
      = before ++ [EvEditOriginal generated] /\
      history tid (snd (regenerate_response self net tid message w))
      = Some (messages d ++ [asked; mkMessage assistant generated])).
Proof.
  intros Ha Hm Ht Hd Hs Hnn tid asked Hreply.
  assert (He : is_empty (text message) = false)
    by (destruct (text message); [congruence | reflexivity]).
  assert (Hshown : forall display, shown display generated = [display generated])
    by (intros display; destruct generated; [congruence | reflexivity..]).
  split.
  - rewrite (on_message_bound self net message w d cs) by
        (try rewrite Ha, Hm, He; auto).
    fold tid asked. rewrite Hreply, Hshown. cbn [snd log conversations].
    eexists. split.
    + rewrite app_assoc. reflexivity.
    + unfold history. cbn [conversations]. now apply history_after_exchange.
  - rewrite (regenerate_bound self net tid message w d cs) by
        (try rewrite Ha, He; auto).
    fold asked. rewrite Hreply, Hshown. cbn [snd log conversations].
    eexists. split.
    + rewrite app_assoc. reflexivity.
    + unfold history. cbn [conversations]. now apply history_after_exchange.
Qed.

Lemma shown_reply_is_stored_reply_witness :
  let self := mkBot "<@1>" "acc" (Some (mkClientSession "Bearer t")) in
  let d := mkDocument 7 [system_message] "@cf/meta/llama-2-7b-chat-fp16" in
  let w := mkWorld [d] [] in
  let message := mkPlatformMessage false true "<@1> hello" 7 in
  let asked := asked_of self "<@1> hello" in
  (exists before,
      log (snd (on_message self (mock "sup") message w)) = before ++ [EvReply (JStr "sup")] /\
      history 7 (snd (on_message self (mock "sup") message w))
      = Some (messages d ++ [asked; mkMessage assistant (JStr "sup")])) /\
  (exists before,
      log (snd (regenerate_response self (mock "sup") 7 message w))
      = before ++ [EvEditOriginal (JStr "sup")] /\
      history 7 (snd (regenerate_response self (mock "sup") 7 message w))
      = Some (messages d ++ [asked; mkMessage assistant (JStr "sup")])).
Proof.
  intros self d w message.
  refine (shown_reply_is_stored_reply self (mkClientSession "Bearer t") (mock "sup")
            message w d (JStr "sup") eq_refl eq_refl _ eq_refl eq_refl _ eq_refl);
    discriminate.
Defined.


(** * One session per thread *)

Lemma find_one_some (tid : Z) (docs : Collection) (d : Document) :
  find_one tid docs = Some d -> In d docs /\ thread_id d = tid.
Proof.
  intros H. apply find_some in H as [Hin Hm].
  split; [exact Hin | now apply Z.eqb_eq in Hm].
Qed.

Lemma filter_matches_none (tid : Z) (docs : Collection) :
  ~ In tid (map thread_id docs) -> filter (matches tid) docs = [].
Proof.
  induction docs as [|d ds IH]; simpl; intros H; [reflexivity|].
  destruct (matches tid d) eqn:E.
  - apply Z.eqb_eq in E. tauto.
  - apply IH. tauto.
Qed.

Lemma at_most_one_match (tid : Z) (docs : Collection) :
  NoDup (map thread_id docs) ->
  (List.length (filter (matches tid) docs) <= 1)%nat.
Proof.
  induction docs as [|d ds IH]; simpl; intros H; [lia|].
  inversion H as [|? ? Hnotin Hnodup]; subst.
  destruct (matches tid d) eqn:E.
  - apply Z.eqb_eq in E. rewrite E in Hnotin.
    rewrite (filter_matches_none tid ds Hnotin). simpl. lia.
  - now apply IH.
Qed.

Lemma found_is_counted (tid : Z) (docs : Collection) (d : Document) :
  find_one tid docs = Some d ->
  (1 <= List.length (filter (matches tid) docs))%nat.
Proof.
  unfold find_one. induction docs as [|d0 ds IH]; simpl; [discriminate|].
  destruct (matches tid d0); simpl; [lia | exact IH].
Qed.

Section Platform.
Variable model_name who : string.
Variable origin : Z.
Variable s : Server.

Lemma create_thread_refused :
  In origin (threads s) -> create_thread (threads s) origin = Raise HTTPException.
Proof.
  intros Hin. unfold create_thread.
  replace (existsb (Z.eqb origin) (threads s)) with true; [reflexivity|].
  symmetry. apply existsb_exists. exists origin. split; [exact Hin | apply Z.eqb_refl].
Qed.

Lemma create_thread_granted :
  ~ In origin (threads s) -> create_thread (threads s) origin = Ret origin.
Proof.
  intros Hnotin. unfold create_thread.
  destruct (existsb (Z.eqb origin) (threads s)) eqn:E; [|reflexivity].
  apply existsb_exists in E as (t & Hin & Ht). apply Z.eqb_eq in Ht. now subst t.
Qed.

Lemma select_model_refused :
  In origin (threads s) ->
  select_model model_name (mkSelectInteraction (Some origin) who) s
  = (Raise HTTPException,
     mkServer (threads s)
              (mkWorld (conversations (world s)) (log (world s) ++ [EvDefer]))).
Proof.
  intros Hin. unfold select_model. cbn [interaction_message].
  now rewrite (create_thread_refused Hin).
Qed.

Lemma select_model_granted :
  ~ In origin (threads s) ->
  select_model model_name (mkSelectInteraction (Some origin) who) s
  = (Ret tt,
     mkServer (origin :: threads s)
              (snd (callback model_name (mkSelectInteraction (Some origin) who) origin
                             (world s)))).
Proof.
  intros Hnotin. unfold select_model. cbn [interaction_message].
  rewrite (create_thread_granted Hnotin). now rewrite callback_creates.
Qed.
End Platform.

Lemma callback_without_message_stores_nothing
      (model_name who : string) (thread : Z) (w : World) :
  callback model_name (mkSelectInteraction None who) thread w
  = (Ret tt,
     mkWorld (conversations w)
             (log w ++ [EvDefer;
                        EvFollowup "Something went wrong, please try again later!"])).
Proof.
  unfold callback, bind, emit. cbn [interaction_message conversations log].
  now rewrite <- app_assoc.
Qed.

(** A selection stores nothing, or one session for a thread that did not
    exist before. *)
Lemma select_model_collection (model_name : string) (interaction : SelectInteraction)
      (s : Server) :
  let s' := snd (select_model model_name interaction s) in
  (threads s' = threads s /\
   conversations (world s') = conversations (world s)) \/
  (exists thread,
      ~ In thread (threads s) /\
      threads s' = thread :: threads s /\
      conversations (world s')
      = conversations (world s) ++ [mkDocument thread [system_message] model_name]).
Proof.
  cbv zeta. destruct interaction as [[origin|] who].
  - destruct (in_dec Z.eq_dec origin (threads s)) as [Hin | Hnotin].
    + left. now rewrite select_model_refused.
    + right. exists origin. rewrite select_model_granted by exact Hnotin.
      rewrite callback_creates. now repeat split.
  - left. unfold select_model. cbn [interaction_message].
    now rewrite callback_without_message_stores_nothing.
Qed.

Lemma serve_collection (a : Arrival) (s : Server) :
  (threads (serve a s) = threads s /\
   exists tid ms,
     conversations (world (serve a s)) = pushes tid ms (conversations (world s))) \/
  (exists thread model_name,
      ~ In thread (threads s) /\
      threads (serve a s) = thread :: threads s /\
      conversations (world (serve a s))
      = conversations (world s) ++ [mkDocument thread [system_message] model_name]).
Proof.
  destruct a as [model_name interaction | self net message | self net channel message];
    cbn [serve].
  - destruct (select_model_collection model_name interaction s)
      as [[Ht Hc] | (thread & Hnew & Ht & Hc)].
    + left. split; [exact Ht|]. exists 0, []. exact Hc.
    + right. now exists thread, model_name.
  - left. split; [reflexivity|]. cbn [world].
    destruct (on_message_writes self net message (world s)) as [ms ->].
    now exists (channel_id message), ms.
  - left. split; [reflexivity|]. cbn [world].
    destruct (regenerate_writes self net channel message (world s)) as [ms ->].
    now exists channel, ms.
Qed.

Lemma in_pushes_thread (tid : Z) (ms : list Message) (docs : Collection) (d : Document) :
  In d (pushes tid ms docs) -> In (thread_id d) (map thread_id docs).
Proof.
  intros Hin. rewrite <- (pushes_thread_ids tid ms docs). now apply in_map.
Qed.

Lemma NoDup_snoc (l : list Z) (a : Z) :
  NoDup l -> ~ In a l -> NoDup (l ++ [a]).
Proof.
  induction 1 as [|x l Hx Hl IH]; simpl; intros Ha.
  - constructor; [intros [] | constructor].
  - constructor.
    + intros Hin. apply in_app_or in Hin as [Hin | [<- | []]]; tauto.
    + apply IH. tauto.
Qed.

Lemma serve_keeps_one_session_per_thread (a : Arrival) (s : Server) :
  one_session_per_thread s -> one_session_per_thread (serve a s).
Proof.
  intros [Hnodup Hknown]. unfold one_session_per_thread.
  destruct (serve_collection a s)
    as [[Ht (tid & ms & Hc)] | (thread & model_name & Hnew & Ht & Hc)];
    rewrite Ht, Hc.
  - split.
    + now rewrite pushes_thread_ids.
    + intros d Hin. apply in_pushes_thread in Hin.
      apply in_map_iff in Hin as (d0 & Hid & Hin0). rewrite <- Hid. now apply Hknown.
  - split.
    + rewrite map_app. cbn [map thread_id].
      apply NoDup_snoc; [exact Hnodup|].
      intros Hin. apply in_map_iff in Hin as (d0 & Hid & Hin0).
      apply Hnew. rewrite <- Hid. now apply Hknown.
    + intros d Hin. apply in_app_or in Hin as [Hin | [<- | []]].
      * right. now apply Hknown.
      * now left.
Qed.

Lemma serve_all_keeps_one_session_per_thread (arrivals : list Arrival) :
  forall s, one_session_per_thread s -> one_session_per_thread (serve_all arrivals s).
Proof.
  unfold serve_all.
  induction arrivals as [|a arrivals IH]; intros s Hs; cbn [fold_left]; [exact Hs|].
  apply IH. now apply serve_keeps_one_session_per_thread.
Qed.

Lemma serve_all_keeps_threads (arrivals : list Arrival) (thread : Z) :
  forall s, In thread (threads s) -> In thread (threads (serve_all arrivals s)).
Proof.
  unfold serve_all.
  induction arrivals as [|a arrivals IH]; intros s Hin; cbn [fold_left]; [exact Hin|].
  apply IH.
  destruct (serve_collection a s) as [[-> _] | (t & m & _ & -> & _)];
    [exact Hin | now right].
Qed.

Lemma serve_all_extends (arrivals : list Arrival) (tid : Z) :
  forall s d,
    find_one tid (conversations (world s)) = Some d ->
    exists more,
      find_one tid (conversations (world (serve_all arrivals s))) = Some (extended d more).
Proof.
  unfold serve_all.
  induction arrivals as [|a arrivals IH]; intros s d Hd; cbn [fold_left].
  - exists []. rewrite Hd. unfold extended. rewrite app_nil_r. now destruct d.
  - assert (Hstep : exists more,
               find_one tid (conversations (world (serve a s))) = Some (extended d more)).
    { destruct (serve_collection a s)
        as [[_ (t & ms & ->)] | (thread & model_name & _ & _ & ->)].
      - now apply pushes_extend.
      - exists [].
        change (conversations (world s) ++ [mkDocument thread [system_message] model_name])
          with (insert_one (mkDocument thread [system_message] model_name)
                           (conversations (world s))).
        rewrite (find_one_insert_present tid _ d _ Hd).
        unfold extended. rewrite app_nil_r. now destruct d. }
    destruct Hstep as [more Hmore].
    destruct (IH _ _ Hmore) as [more' Hmore'].
    exists (more ++ more'). now rewrite Hmore', extended_twice.
Qed.




(** * A payload the code does not check *)

(** C4, as the claim has it, fails.  The service answers with an error
    envelope whose [result] has a [response] of [null]: nothing raises, an
    assistant entry with [null] as content is appended behind the user
    entry, and [on_message] returns without a reply. *)
Lemma unusable_payload_appends_assistant :
  let self := mkBot "<@1>" "acc" (Some (mkClientSession "Bearer t")) in
  let d := mkDocument 7 [system_message] "@cf/meta/llama-2-7b-chat-fp16" in
  let body :=
    JObj [("result", JObj [("response", JNull)]);
          ("success", JBool false);
          ("errors", JArr [JObj [("code", JNum "3040");
                                 ("message", JStr "Capacity temporarily exceeded")]]);
          ("messages", JArr [])] in
  let hello := mkMessage user (JStr "hello") in
  let (r, w') := on_message self (fun _ _ => Body body)
                            (mkPlatformMessage false true "hello" 7) (mkWorld [d] []) in
  r = Ret tt /\
  history 7 w' = Some [system_message; hello; mkMessage assistant JNull] /\
  history 7 w' <> Some [system_message; hello] /\
  log w' = [EvTyping 7; EvPush 7 hello;
            EvPost (run_url self (model d)) [system_message; hello];
            EvPush 7 (mkMessage assistant JNull)].
Proof.
  cbv zeta. vm_compute. repeat split. discriminate.
Qed.
